(** * TSL2561 luminosity sensor driver (tsl2561.py)

    A shallow embedding of the MicroPython driver class [TSL2561]: the
    register protocol spoken over the I2C transport, the cached
    configuration, and the piecewise lux approximation. *)

From Stdlib Require Import ZArith List String Bool Lia HexString.
From Stdlib Require Import Floats.SpecFloat.
Import ListNotations.
Local Open Scope Z_scope.

(** ** Python values reaching the driver *)

(** The objects the methods receive and exchange with the transport: [None],
    booleans, integers, and byte buffers ([bytes] and [bytearray], kept as the
    list of their items). *)
Inductive value :=
| VNone
| VBool (b : bool)
| VInt (n : Z)
| VBytes (bs : list Z).

Inductive class := NoneType | bool_class | int_class | bytes_class.

(** [v.__class__] *)
Definition class_of (v : value) : class :=
  match v with
  | VNone => NoneType
  | VBool _ => bool_class
  | VInt _ => int_class
  | VBytes _ => bytes_class
  end.

Definition class_eqb (c1 c2 : class) : bool :=
  match c1, c2 with
  | NoneType, NoneType | bool_class, bool_class
  | int_class, int_class | bytes_class, bytes_class => true
  | _, _ => false
  end.

Fixpoint bytes_eqb (xs ys : list Z) : bool :=
  match xs, ys with
  | [], [] => true
  | x :: xs', y :: ys' => (x =? y) && bytes_eqb xs' ys'
  | _, _ => false
  end.

(** [v == w]: a bool is an int (True == 1), a buffer is equal only to a
    buffer with the same items, and objects of unrelated classes are never
    equal. *)
Definition py_eq (v w : value) : bool :=
  match v, w with
  | VNone, VNone => true
  | VBool a, VBool b => Bool.eqb a b
  | VBool a, VInt n | VInt n, VBool a => Z.b2z a =? n
  | VInt m, VInt n => m =? n
  | VBytes xs, VBytes ys => bytes_eqb xs ys
  | _, _ => false
  end.

(** Truth value of an object, as tested by [if v] and [not v]. *)
Definition truthy (v : value) : bool :=
  match v with
  | VNone => false
  | VBool b => b
  | VInt n => negb (n =? 0)
  | VBytes bs => match bs with [] => false | _ => true end
  end.

(** The integer a bool or int stands for under [<<] and [|]. *)
Definition int_of (v : value) : Z :=
  match v with
  | VBool b => Z.b2z b
  | VInt n => n
  | _ => 0
  end.

Inductive exn :=
| ValueError (msg : string)
| PyException (msg : string)
| TypeError (msg : string)
| AttributeError (attr : string)
| IndexError
| ZeroDivisionError
| OSError (errno : Z).

Inductive result (A : Type) :=
| Ok (a : A)
| Raise (e : exn).
Arguments Ok {A} a.
Arguments Raise {A} e.

(** ** The I2C transport *)

(** One transaction on the bus together with its outcome: a presence probe
    and its answer, a write and the error it raised if any, a read and the
    bytes or the error it produced. *)
Inductive xfer :=
| Probe (addr : Z) (ack : bool)
| Send (buf : value) (addr : Z) (err : option Z)
| Recv (n : Z) (addr : Z) (res : list Z + Z).

(** The transport is an external collaborator ([pyb.I2C]): any state machine
    offering [is_ready], [send] and [recv].  A failed transfer raises
    [OSError errno]; a successful [recv n] hands back [n] bytes. *)
Class I2C (B : Type) := {
  is_ready : Z -> B -> bool * B;
  send : value -> Z -> B -> option Z * B;
  recv : Z -> Z -> B -> (list Z + Z) * B;
  recv_bytes : forall n a b bs b',
      recv n a b = (inl bs, b') ->
      List.length bs = Z.to_nat n /\ Forall (fun x => 0 <= x < 256) bs
}.

(** ** State and exceptions *)

(** Methods run against the object and either return or raise; the object
    survives an exception with whatever was assigned before it. *)
Definition M (S A : Type) : Type := S -> result A * S.

Definition ret {S A} (a : A) : M S A := fun s => (Ok a, s).

Definition bind {S A C} (m : M S A) (k : A -> M S C) : M S C :=
  fun s =>
    match m s with
    | (Ok a, s') => k a s'
    | (Raise e, s') => (Raise e, s')
    end.

Definition raise {S A} (e : exn) : M S A := fun s => (Raise e, s).

Declare Scope py_scope.
Delimit Scope py_scope with py.
Notation "x <- m ;; k" := (bind m (fun x => k))
  (at level 61, m at next level, right associativity) : py_scope.
Notation "m ;; k" := (bind m (fun _ => k))
  (at level 61, right associativity) : py_scope.
Local Open Scope py_scope.

(** ** Module constants *)

Definition T_FAST : Z := 0.
Definition T_MEDIUM : Z := 1.
Definition T_SLOW : Z := 2.
Definition T_MANUAL : Z := 3.

(** Default of the [addr] argument of the constructor. *)
Definition addr_default : Z := 0x39.

(** ** Floating point *)

(** Python floats are IEEE 754 binary64 numbers; the operations are the
    correctly rounded ones of [SpecFloat]. *)
Definition float : Type := spec_float.
Definition prec : Z := 53.
Definition emax : Z := 1024.

Definition fdiv : float -> float -> float := SFdiv prec emax.
Definition fmul : float -> float -> float := SFmul prec emax.
Definition fsub : float -> float -> float := SFsub prec emax.
Definition fle : float -> float -> bool := SFleb.
Definition flt : float -> float -> bool := SFltb.

(** [float(z)], the conversion an int operand undergoes next to a float *)
Definition of_int (z : Z) : float := binary_normalize prec emax z 0 false.

(** The float denoted by the decimal literal [n/d]: the binary64 number
    nearest to that fraction. *)
Definition dec (n d : Z) : float := fdiv (of_int n) (of_int d).

(** [a / b] on ints *)
Definition truediv (a b : Z) : result float :=
  if b =? 0 then Raise ZeroDivisionError else Ok (fdiv (of_int a) (of_int b)).

(** What [get_lumi] returns: the int [0] it starts from, or a float. *)
Inductive number :=
| Int (n : Z)
| Float (f : float).

Section Lux.
(** [math.pow] *)
Variable pow : float -> float -> float.

(** The body of [get_lumi] once the raw reading is in hand. *)
Definition lux (raw : Z * Z) : result number :=
  let l := Int 0 in
  if negb (fst raw =? 0) then
    match truediv (snd raw) (fst raw) with
    | Raise e => Raise e
    | Ok c =>
        if flt (of_int 0) c then
          if fle c (dec 5 10) then
            Ok (Float (fsub (fmul (dec 304 10000) (of_int (fst raw)))
                            (fmul (fmul (dec 62 1000) (of_int (fst raw)))
                                  (pow c (dec 14 10)))))
          else if fle c (dec 61 100) then
            Ok (Float (fsub (fmul (dec 224 10000) (of_int (fst raw)))
                            (fmul (dec 31 1000) (of_int (snd raw)))))
          else if fle c (dec 8 10) then
            Ok (Float (fsub (fmul (dec 128 10000) (of_int (fst raw)))
                            (fmul (dec 153 10000) (of_int (snd raw)))))
          else if fle c (dec 13 10) then
            Ok (Float (fsub (fmul (dec 146 100000) (of_int (fst raw)))
                            (fmul (dec 112 100000) (of_int (snd raw)))))
          else Ok (Int 0)
        else Ok l
    end
  else Ok l.
End Lux.

(** ** class TSL2561 *)

Section Driver.
Context {B : Type} `{Bus : I2C B}.
Variable pow : float -> float -> float.

(** The attributes of the object.  [_i2c] and [_addr] are assigned first
    thing by the constructor; [_gain] and [_timing] exist only once
    [set_timing_gain] has assigned them.  [wire] is not an attribute: it
    records the transactions issued on the bus so far. *)
Record TSL2561 := {
  _i2c : B;
  _addr : Z;
  _gain : option value;
  _timing : option Z;
  wire : list xfer
}.

Definition on_bus (d : TSL2561) (b' : B) (x : xfer) : TSL2561 :=
  {| _i2c := b'; _addr := _addr d; _gain := _gain d; _timing := _timing d;
     wire := wire d ++ [x] |}.

(** [self._i2c.is_ready(self._addr)] *)
Definition probe : M TSL2561 bool := fun d =>
  let '(ack, b') := is_ready (_addr d) (_i2c d) in
  (Ok ack, on_bus d b' (Probe (_addr d) ack)).

Definition _send (buf : value) : M TSL2561 unit := fun d =>
  let '(err, b') := send buf (_addr d) (_i2c d) in
  let d' := on_bus d b' (Send buf (_addr d) err) in
  match err with
  | None => (Ok tt, d')
  | Some errno => (Raise (OSError errno), d')
  end.

Definition _recv (n : Z) : M TSL2561 value := fun d =>
  let '(res, b') := recv n (_addr d) (_i2c d) in
  let d' := on_bus d b' (Recv n (_addr d) res) in
  match res with
  | inl bs => (Ok (VBytes bs), d')
  | inr errno => (Raise (OSError errno), d')
  end.

(** [b.append(x)] on a bytearray *)
Definition append (b : list Z) (x : Z) : M TSL2561 (list Z) :=
  if (0 <=? x) && (x <? 256) then ret (b ++ [x])
  else raise (ValueError "byte must be in range(0, 256)").

(** [v[0]] *)
Definition item0 (v : value) : M TSL2561 Z :=
  match v with
  | VBytes (x :: _) => ret x
  | VBytes [] => raise IndexError
  | _ => raise (TypeError "object is not subscriptable")
  end.

(** [self._gain = g] and [self._timing = t] *)
Definition assign_gain (g : value) : M TSL2561 unit := fun d =>
  (Ok tt, {| _i2c := _i2c d; _addr := _addr d; _gain := Some g;
             _timing := _timing d; wire := wire d |}).

Definition assign_timing (t : Z) : M TSL2561 unit := fun d =>
  (Ok tt, {| _i2c := _i2c d; _addr := _addr d; _gain := _gain d;
             _timing := Some t; wire := wire d |}).

(** [set_power_up(s)]; [s] defaults to [True].  The readback test is
    [self._recv(1) == 0b11], a buffer against an int, and its body is
    [raise("...")], which, handed a str, raises [TypeError]. *)
Definition set_power_up (s : value) : M TSL2561 unit :=
  if negb (class_eqb (class_of s) bool_class)
  then raise (ValueError "Boolean object needed as argument!")
  else
    b <- append [] 0x80 ;;
    b <- (if truthy s then append b 3 else append b 0) ;;
    _send (VBytes b) ;;
    if truthy s then
      r <- _recv 1 ;;
      if py_eq r (VInt 3)
      then raise (TypeError "exceptions must derive from BaseException")
      else ret tt
    else ret tt.

(** [set_timing_gain(timing, gain, manual_start)]; the defaults are
    [T_SLOW], [False] and [True].  The two attributes are assigned before
    the buffer is sent. *)
Definition set_timing_gain (timing : Z) (gain manual_start : value)
  : M TSL2561 unit :=
  if negb (existsb (Z.eqb timing) [T_FAST; T_MEDIUM; T_SLOW; T_MANUAL])
  then raise (ValueError "Wrong value for timing argument!")
  else if negb (class_eqb (class_of gain) bool_class)
  then raise (ValueError "Boolean object needed as gain argument!")
  else if negb (class_eqb (class_of manual_start) bool_class)
  then raise (ValueError "Boolean object needed as manual start/stop argument!")
  else
    b <- append [] 0x81 ;;
    b <- append b (Z.lor (Z.lor (Z.shiftl (int_of gain) 4)
                                (Z.shiftl (int_of manual_start) 3))
                         timing) ;;
    assign_gain gain ;;
    assign_timing timing ;;
    _send (VBytes b).

Definition get_id : M TSL2561 (Z * Z) :=
  b <- append [] 0x8A ;;
  _send (VBytes b) ;;
  r <- _recv 1 ;;
  id_reg <- item0 r ;;
  let p_no := Z.shiftr id_reg 4 in
  let r_no := Z.land id_reg 0xF in
  ret (p_no, r_no).

(** [self._gain], which raises when the attribute was never assigned *)
Definition attr_gain : M TSL2561 value := fun d =>
  match _gain d with
  | Some g => (Ok g, d)
  | None => (Raise (AttributeError "_gain"), d)
  end.

(** The four registers are selected by sending the command as an int, and
    [self._gain] is read only after the last of them has been received. *)
Definition _raw_lumi : M TSL2561 (Z * Z) :=
  _send (VInt 0x8C) ;;
  r <- _recv 1 ;; c0_l <- item0 r ;;
  _send (VInt 0x8D) ;;
  r <- _recv 1 ;; c0_h <- item0 r ;;
  _send (VInt 0x8E) ;;
  r <- _recv 1 ;; c1_l <- item0 r ;;
  _send (VInt 0x8F) ;;
  r <- _recv 1 ;; c1_h <- item0 r ;;
  let c0 := c0_h * 256 + c0_l in
  let c1 := c1_h * 256 + c1_l in
  g <- attr_gain ;;
  if negb (truthy g)
  then ret (Z.shiftl c0 4, Z.shiftl c1 4)
  else ret (c0, c1).

Definition get_lumi : M TSL2561 number :=
  raw <- _raw_lumi ;;
  match lux pow raw with
  | Ok l => ret l
  | Raise e => raise e
  end.

Inductive handle :=
| PyNone
| PyI2C (bus : B)
| PyOther (v : value).

(** The constructor.  No object exists when the argument check raises;
    otherwise the object is returned next to the outcome, as it stands
    when [__init__] returns or raises. *)
Definition __init__ (i2c : handle) (addr : option Z)
  : result unit * option TSL2561 :=
  let addr := match addr with Some a => a | None => addr_default end in
  match i2c with
  | PyI2C b =>
      let self := {| _i2c := b; _addr := addr; _gain := None;
                     _timing := None; wire := [] |} in
      let '(r, d) :=
        (ready <- probe ;;
         if negb ready
         then raise (PyException
                       ("SHT31 not found on address " ++ HexString.of_Z addr)%string)
         else
           set_power_up (VBool true) ;;
           set_power_up (VBool false)) self in
      (r, Some d)
  | _ => (Raise (ValueError "I2C object needed as argument!"), None)
  end.

(** The bus serves the transfers [xs], with the outcomes they record,
    from state [b] and is left in state [b']. *)
Definition serves1 (b : B) (x : xfer) (b' : B) : Prop :=
  match x with
  | Probe a ack => is_ready a b = (ack, b')
  | Send buf a err => send buf a b = (err, b')
  | Recv n a res => recv n a b = (res, b')
  end.

Fixpoint serves (b : B) (xs : list xfer) (b' : B) : Prop :=
  match xs with
  | [] => b' = b
  | x :: xs' => exists b1, serves1 b x b1 /\ serves b1 xs' b'
  end.

(** Method calls made on a constructed object by its owner, who goes on
    with the same object whether a call returned or raised. *)
Inductive call :=
| call_set_power_up (s : value)
| call_set_timing_gain (timing : Z) (gain manual_start : value)
| call_get_id
| call_raw_lumi
| call_get_lumi.

Definition after_call (d : TSL2561) (c : call) : TSL2561 :=
  match c with
  | call_set_power_up s => snd (set_power_up s d)
  | call_set_timing_gain t g m => snd (set_timing_gain t g m d)
  | call_get_id => snd (get_id d)
  | call_raw_lumi => snd (_raw_lumi d)
  | call_get_lumi => snd (get_lumi d)
  end.

Definition after_calls (d : TSL2561) (cs : list call) : TSL2561 :=
  fold_left after_call cs d.

(** The arguments [set_timing_gain] lets through its three checks. *)
Definition accepted (timing : Z) (gain manual_start : value) : bool :=
  existsb (Z.eqb timing) [T_FAST; T_MEDIUM; T_SLOW; T_MANUAL]
  && class_eqb (class_of gain) bool_class
  && class_eqb (class_of manual_start) bool_class.

(** The calls that get as far as assigning the cached configuration. *)
Definition configures (c : call) : bool :=
  match c with
  | call_set_timing_gain timing gain manual_start =>
      accepted timing gain manual_start
  | _ => false
  end.

(** The transfers of one raw reading: the four data registers in turn,
    each selected by a one-byte command and read back as [r0] .. [r3]. *)
Definition raw_exchange (a : Z) (r0 r1 r2 r3 : list Z) : list xfer :=
  [Send (VInt 0x8C) a None; Recv 1 a (inl r0);
   Send (VInt 0x8D) a None; Recv 1 a (inl r1);
   Send (VInt 0x8E) a None; Recv 1 a (inl r2);
   Send (VInt 0x8F) a None; Recv 1 a (inl r3)].

(** An action is framed when it leaves the address and the cached
    configuration as it found them. *)
Definition framed {A} (m : M TSL2561 A) : Prop :=
  forall d, _addr (snd (m d)) = _addr d
            /\ _gain (snd (m d)) = _gain d
            /\ _timing (snd (m d)) = _timing d.

End Driver.

Arguments TSL2561 B : clear implicits.
Arguments handle B : clear implicits.
Arguments call : clear implicits.
Arguments framed B {A} m.

(** ** A scripted transport *)

(** A stand-in for the bus whose answers are laid down in advance: whether
    a device acknowledges the probe, the outcome of each write in turn
    (acknowledged once the script runs out), and the outcome of each read in
    turn (zero bytes once the script runs out).  A scripted read that does
    not have the requested length, or holds something that is not a byte,
    surfaces as error 5 (EIO). *)
Record Mock := {
  present : bool;
  acks : list (option Z);
  replies : list (list Z + Z)
}.

Definition is_byte (x : Z) : bool := (0 <=? x) && (x <? 256).

Definition mock_is_ready (a : Z) (m : Mock) : bool * Mock := (present m, m).

Definition mock_send (buf : value) (a : Z) (m : Mock) : option Z * Mock :=
  match acks m with
  | [] => (None, m)
  | e :: rest =>
      (e, {| present := present m; acks := rest; replies := replies m |})
  end.

Definition mock_recv (n a : Z) (m : Mock) : (list Z + Z) * Mock :=
  match replies m with
  | [] => (inl (repeat 0 (Z.to_nat n)), m)
  | r :: rest =>
      let m' := {| present := present m; acks := acks m; replies := rest |} in
      match r with
      | inl bs =>
          if (Nat.eqb (List.length bs) (Z.to_nat n)) && forallb is_byte bs
          then (inl bs, m') else (inr 5, m')
      | inr errno => (inr errno, m')
      end
  end.

Lemma mock_recv_bytes : forall n a m bs m',
    mock_recv n a m = (inl bs, m') ->
    List.length bs = Z.to_nat n /\ Forall (fun x => 0 <= x < 256) bs.
Proof.
  intros n a m bs m'. unfold mock_recv.
  destruct (replies m) as [|[xs|errno] rest].
  - intros [= <- _]. split.
    + apply repeat_length.
    + apply Forall_forall. intros x Hx. apply repeat_spec in Hx. lia.
  - destruct (Nat.eqb (List.length xs) (Z.to_nat n) && forallb is_byte xs)
      eqn:E; intros [= <- _].
    apply andb_prop in E as [El Eb]. split.
    + now apply Nat.eqb_eq.
    + apply Forall_forall. intros x Hx.
      rewrite forallb_forall in Eb. specialize (Eb x Hx).
      unfold is_byte in Eb. lia.
  - discriminate.
Qed.

#[export] Instance MockBus : I2C Mock := {
  is_ready := mock_is_ready;
  send := mock_send;
  recv := mock_recv;
  recv_bytes := mock_recv_bytes
}.

(** A driver object on a scripted bus at the default address, with nothing
    cached and nothing issued on the bus yet. *)
Definition mock_driver (m : Mock) : TSL2561 Mock :=
  {| _i2c := m; _addr := addr_default; _gain := None; _timing := None;
     wire := [] |}.

(** A driver on a scripted bus whose configuration has been cached. *)
Definition mock_configured (gain : bool) (timing : Z) (m : Mock)
  : TSL2561 Mock :=
  {| _i2c := m; _addr := addr_default; _gain := Some (VBool gain);
     _timing := Some timing; wire := [] |}.

(** A bus with a device on it that acknowledges every write and answers
    the reads with [rs] in turn. *)
Definition answering (rs : list (list Z)) : Mock :=
  {| present := true; acks := []; replies := map inl rs |}.

(** Some function to stand where [math.pow] does when a statement is
    instantiated; the statements hold for every such function. *)
Definition pow_any : float -> float -> float := fun x _ => x.

(** ** Reading the record of bus transactions *)

(** The error a transfer raised, if it did. *)
Definition failed (x : xfer) : option Z :=
  match x with
  | Probe _ _ => None
  | Send _ _ err => err
  | Recv _ _ (inl _) => None
  | Recv _ _ (inr errno) => Some errno
  end.

(** The transfer was addressed to [a]. *)
Definition to_addr (a : Z) (x : xfer) : Prop :=
  match x with
  | Probe a' _ | Send _ a' _ | Recv _ a' _ => a' = a
  end.

(** How a run of transfers ended: [Some None] when all of them succeeded,
    [Some (Some errno)] when the last one failed with [errno] and the ones
    before it succeeded, [None] when a transfer was issued after a failed
    one. *)
Fixpoint verdict (xs : list xfer) : option (option Z) :=
  match xs with
  | [] => Some None
  | x :: rest =>
      match failed x with
      | None => verdict rest
      | Some errno => match rest with [] => Some (Some errno) | _ => None end
      end
  end.

(** The error of the transport an outcome carries, if any. *)
Definition transport_error {A} (r : result A) : option Z :=
  match r with
  | Raise (OSError errno) => Some errno
  | _ => None
  end.

Section Discipline.
Context {B : Type} `{Bus : I2C B}.

(** An action is disciplined when the transfers it issues all go to the
    address of the object, which it leaves alone, when it stops at the first
    transfer that fails, and when it raises [OSError] with the error of that
    transfer and in no other case. *)
Definition disciplined {A} (m : M (TSL2561 B) A) : Prop :=
  forall d, exists xs,
    wire (snd (m d)) = wire d ++ xs
    /\ _addr (snd (m d)) = _addr d
    /\ Forall (to_addr (_addr d)) xs
    /\ verdict xs = Some (transport_error (fst (m d))).

(** The cached gain and timing once call [c] has been made: those of the
    call when it is a [set_timing_gain] with accepted arguments, those held
    before otherwise. *)
Definition configured (acc : option value * option Z) (c : call)
  : option value * option Z :=
  match c with
  | call_set_timing_gain timing gain manual_start =>
      if accepted timing gain manual_start
      then (Some gain, Some timing) else acc
  | _ => acc
  end.

(** The cache is either wholly unset, or holds a boolean gain and one of
    the four timing codes. *)
Definition coherent (d : TSL2561 B) : Prop :=
  (_gain d = None /\ _timing d = None)
  \/ (exists g t, _gain d = Some (VBool g) /\ _timing d = Some t
                  /\ In t [T_FAST; T_MEDIUM; T_SLOW; T_MANUAL]).

End Discipline.

Arguments disciplined B {A} m.
Arguments coherent {B} d.

(** ** Notions used to reason about the floats *)

(** Floats above zero: positive finite numbers and plus infinity. *)
Definition positive_float (f : float) : Prop :=
  match f with
  | S754_finite false _ _ | S754_infinity false => True
  | _ => False
  end.

(** A positive mantissa whose value lies in the range of normal numbers. *)
Definition normal_range (m e : Z) : Prop :=
  0 < m /\ emin prec emax + prec <= Zdigits2 m + e.

(** Mantissa and exponent of the float an int below 2^52 converts to. *)
Definition mantissa (a : Z) : positive :=
  Pos.iter xO (Z.to_pos a) (Z.to_pos (prec - Zdigits2 a)).

Definition exponent (a : Z) : Z := Zdigits2 a - prec.

(** The four ratio bounds of [get_lumi], evaluated once. *)
Definition bound_0_5 : float := Eval vm_compute in dec 5 10.
Definition bound_0_61 : float := Eval vm_compute in dec 61 100.
Definition bound_0_8 : float := Eval vm_compute in dec 8 10.
Definition bound_1_3 : float := Eval vm_compute in dec 13 10.

(** Which arm of the [if]/[elif] chain of [get_lumi] a ratio takes: 1 to 4
    for the four formulas, 5 for the final [else]. *)
Definition band (c : float) : Z :=
  if fle c bound_0_5 then 1
  else if fle c bound_0_61 then 2
  else if fle c bound_0_8 then 3
  else if fle c bound_1_3 then 4
  else 5.

(** [f k], [f (k+1)], ... all hold, [n] of them. *)
Fixpoint allb (f : Z -> bool) (n : nat) (k : Z) : bool :=
  match n with
  | O => true
  | S n' => f k && allb f n' (k + 1)
  end.

(** The channels [q * k] and [p * k], whose ratio is exactly [p / q], take
    arm [i]. *)
Definition exact_ratio_band (p q i k : Z) : bool :=
  band (fdiv (of_int (p * k)) (of_int (q * k))) =? i.

(** * Properties *)

(** ** Running the methods *)

(** A sequence that returns has run both of its halves to their return. *)
Lemma bind_returns {S A C} (m : M S A) (k : A -> M S C) s c s2 :
  bind m k s = (Ok c, s2) ->
  exists a s1, m s = (Ok a, s1) /\ k a s1 = (Ok c, s2).
Proof.
  unfold bind. destruct (m s) as [[a|e] s1]; intros H.
  - now exists a, s1.
  - discriminate.
Qed.

Section Protocol.
Context {B : Type} `{Bus : I2C B}.
Variable pow : float -> float -> float.

Let driver : Type := TSL2561 B.

(** A read of one byte that succeeds yields a one-item buffer. *)
Lemma recv_one a (b : B) bs b' :
  recv 1 a b = (inl bs, b') -> exists x, bs = [x] /\ 0 <= x < 256.
Proof.
  intros H. apply recv_bytes in H as [Hlen Hall].
  destruct bs as [|x [|y bs]]; try discriminate.
  exists x. split; [reflexivity|]. now inversion Hall.
Qed.

(** *** Attributes left alone *)

Lemma framed_ret {A} (a : A) : framed B (ret a).
Proof. now intros d. Qed.

Lemma framed_raise {A} e : framed B (A:=A) (raise e).
Proof. now intros d. Qed.

Lemma framed_bind {A C} (m : M driver A) (k : A -> M driver C) :
  framed B m -> (forall a, framed B (k a)) -> framed B (bind m k).
Proof.
  intros Hm Hk d. unfold bind. specialize (Hm d).
  destruct (m d) as [[a|e] d1]; cbn [snd] in *.
  - specialize (Hk a d1). intuition congruence.
  - exact Hm.
Qed.

Lemma framed_if {A} (c : bool) (m1 m2 : M driver A) :
  framed B m1 -> framed B m2 -> framed B (if c then m1 else m2).
Proof. now destruct c. Qed.

Lemma framed_send buf : framed B (_send buf).
Proof.
  intros d. unfold _send.
  destruct (send buf (_addr d) (_i2c d)) as [[errno|] b']; now cbn.
Qed.

Lemma framed_recv n : framed B (_recv n).
Proof.
  intros d. unfold _recv.
  destruct (recv n (_addr d) (_i2c d)) as [[bs|errno] b']; now cbn.
Qed.

Lemma framed_probe : framed B probe.
Proof.
  intros d. unfold probe.
  destruct (is_ready (_addr d) (_i2c d)) as [ack b']; now cbn.
Qed.

Lemma framed_append b x : framed B (append b x).
Proof. unfold append. apply framed_if; [apply framed_ret|apply framed_raise]. Qed.

Lemma framed_item0 v : framed B (item0 v).
Proof.
  destruct v as [| | |[|x bs]]; cbn;
    first [apply framed_ret | apply framed_raise].
Qed.

Lemma framed_attr_gain : framed B attr_gain.
Proof. intros d. unfold attr_gain. destruct (_gain d) eqn:E; cbn; auto. Qed.

Lemma framed_result {A} (r : result A) :
  framed B (match r with Ok l => ret l | Raise e => raise e end).
Proof. destruct r; [apply framed_ret|apply framed_raise]. Qed.

Create HintDb framed discriminated.
Hint Resolve framed_ret framed_raise framed_send framed_recv framed_probe
  framed_append framed_item0 framed_attr_gain framed_result : framed.
Hint Extern 2 (framed _ (bind _ _)) => apply framed_bind; [|intro] : framed.
Hint Extern 2 (framed _ (if _ then _ else _)) => apply framed_if : framed.

Lemma framed_set_power_up s : framed B (set_power_up s).
Proof. unfold set_power_up. auto 20 with framed. Qed.

Lemma framed_get_id : framed B get_id.
Proof. unfold get_id. auto 20 with framed. Qed.

Lemma framed_raw_lumi : framed B _raw_lumi.
Proof. unfold _raw_lumi. auto 40 with framed. Qed.

Lemma framed_get_lumi : framed B (get_lumi pow).
Proof.
  unfold get_lumi. apply framed_bind; [apply framed_raw_lumi|].
  intro raw. apply framed_result.
Qed.

(** *** Replaying a served exchange *)

Ltac replay :=
  repeat (unfold bind, ret, raise, item0, append, attr_gain, _send, _recv,
            probe;
          cbn [on_bus _addr _i2c _gain _timing wire];
          match goal with
          | E : send ?buf ?a ?b = _ |- context [send ?buf ?a ?b] => rewrite E
          | E : recv ?n ?a ?b = _ |- context [recv ?n ?a ?b] => rewrite E
          | E : is_ready ?a ?b = _ |- context [is_ready ?a ?b] => rewrite E
          end).

Ltac landed :=
  unfold on_bus; cbn; rewrite <- ?app_assoc; reflexivity.

(** Powering up returns normally whatever the device reads back: the
    buffer [_recv] hands over is never equal to the int [0b11]. *)
Lemma set_power_up_enable (d : driver) bs b1 b2 :
  send (VBytes [0x80; 3]) (_addr d) (_i2c d) = (None, b1) ->
  recv 1 (_addr d) b1 = (inl bs, b2) ->
  set_power_up (VBool true) d
  = (Ok tt, {| _i2c := b2; _addr := _addr d; _gain := _gain d;
               _timing := _timing d;
               wire := wire d ++ [Send (VBytes [0x80; 3]) (_addr d) None;
                                  Recv 1 (_addr d) (inl bs)] |}).
Proof.
  intros E1 E2.
  unfold set_power_up, bind, append, ret, _send, _recv. cbn.
  replay. landed.
Qed.

Lemma set_power_up_disable (d : driver) err b1 :
  send (VBytes [0x80; 0]) (_addr d) (_i2c d) = (err, b1) ->
  set_power_up (VBool false) d
  = (match err with None => Ok tt | Some errno => Raise (OSError errno) end,
     on_bus d b1 (Send (VBytes [0x80; 0]) (_addr d) err)).
Proof.
  intros E1.
  unfold set_power_up, bind, append, ret, _send. cbn.
  replay. now destruct err.
Qed.

(** One raw reading on a bus that serves it: the channels are rebuilt
    from the four bytes, and then [self._gain] is consulted. *)
Lemma raw_lumi_served (d : driver) c0_l c0_h c1_l c1_h b' :
  serves (_i2c d) (raw_exchange (_addr d) [c0_l] [c0_h] [c1_l] [c1_h]) b' ->
  let c0 := c0_h * 256 + c0_l in
  let c1 := c1_h * 256 + c1_l in
  _raw_lumi d
  = (match _gain d with
     | Some g => Ok (if negb (truthy g)
                     then (Z.shiftl c0 4, Z.shiftl c1 4) else (c0, c1))
     | None => Raise (AttributeError "_gain")
     end,
     {| _i2c := b'; _addr := _addr d; _gain := _gain d; _timing := _timing d;
        wire := wire d
                ++ raw_exchange (_addr d) [c0_l] [c0_h] [c1_l] [c1_h] |}).
Proof.
  intros (b1 & E1 & b2 & E2 & b3 & E3 & b4 & E4
          & b5 & E5 & b6 & E6 & b7 & E7 & b8 & E8 & ->) c0 c1.
  cbn [serves1] in *. unfold _raw_lumi. replay.
  unfold on_bus, raw_exchange; cbn. rewrite <- !app_assoc. cbn.
  destruct (_gain d) as [g|]; [|reflexivity].
  now destruct (negb (truthy g)).
Qed.

(** The data a served raw reading carries is four single bytes. *)
Lemma raw_exchange_bytes a (b : B) r0 r1 r2 r3 b' :
  serves b (raw_exchange a r0 r1 r2 r3) b' ->
  exists c0_l c0_h c1_l c1_h,
    (r0, r1, r2, r3) = ([c0_l], [c0_h], [c1_l], [c1_h])
    /\ 0 <= c0_l < 256 /\ 0 <= c0_h < 256
    /\ 0 <= c1_l < 256 /\ 0 <= c1_h < 256.
Proof.
  intros (b1 & E1 & b2 & E2 & b3 & E3 & b4 & E4
          & b5 & E5 & b6 & E6 & b7 & E7 & b8 & E8 & ->).
  cbn [serves1] in *.
  destruct (recv_one _ _ _ _ E2) as (x0 & -> & H0).
  destruct (recv_one _ _ _ _ E4) as (x1 & -> & H1).
  destruct (recv_one _ _ _ _ E6) as (x2 & -> & H2).
  destruct (recv_one _ _ _ _ E8) as (x3 & -> & H3).
  now exists x0, x1, x2, x3.
Qed.

(** *** Claims *)

(** C7. [get_id] sends the single command byte 0x8A, reads one byte, and
    returns the pair made of that byte shifted right by four and of its low
    four bits; the register byte 0xA5 decodes to part 10, revision 5. *)
Theorem get_id_decodes (d : driver) bs b' :
  serves (_i2c d) [Send (VBytes [0x8A]) (_addr d) None;
                   Recv 1 (_addr d) (inl bs)] b' ->
  exists id_reg,
    bs = [id_reg]
    /\ get_id d
       = (Ok (Z.shiftr id_reg 4, Z.land id_reg 0xF),
          {| _i2c := b'; _addr := _addr d; _gain := _gain d;
             _timing := _timing d;
             wire := wire d ++ [Send (VBytes [0x8A]) (_addr d) None;
                                Recv 1 (_addr d) (inl bs)] |})
    /\ (id_reg = 0xA5 -> fst (get_id d) = Ok (10, 5)).
Proof.
  intros (b1 & E1 & b2 & E2 & ->). cbn [serves1] in *.
  destruct (recv_one _ _ _ _ E2) as (x & -> & _).
  exists x. split; [reflexivity|].
  assert (G : get_id d
              = (Ok (Z.shiftr x 4, Z.land x 0xF),
                 {| _i2c := b2; _addr := _addr d; _gain := _gain d;
                    _timing := _timing d;
                    wire := wire d ++ [Send (VBytes [0x8A]) (_addr d) None;
                                       Recv 1 (_addr d) (inl [x])] |})).
  { unfold get_id, bind, append, ret, item0, _send, _recv. cbn.
    replay. landed. }
  split; [exact G|].
  intros ->. now rewrite G.
Qed.

(** C4. [_raw_lumi] rebuilds each channel as high * 256 + low (low 0x34
    and high 0x12 give 4660); with the cached gain off both channels are
    shifted left by four bits, sixteen times the rebuilt value, and with
    the gain on they are returned as rebuilt. *)
Theorem raw_lumi_reconstructs (d : driver) (g : bool) c0_l c0_h c1_l c1_h b' :
  _gain d = Some (VBool g) ->
  serves (_i2c d) (raw_exchange (_addr d) [c0_l] [c0_h] [c1_l] [c1_h]) b' ->
  let c0 := c0_h * 256 + c0_l in
  let c1 := c1_h * 256 + c1_l in
  fst (_raw_lumi d)
  = Ok (if g then (c0, c1) else (Z.shiftl c0 4, Z.shiftl c1 4))
  /\ Z.shiftl c0 4 = 16 * c0
  /\ Z.shiftl c1 4 = 16 * c1
  /\ (c0_l = 0x34 -> c0_h = 0x12 -> c0 = 4660).
Proof.
  intros Hg H c0 c1. repeat split.
  - rewrite (raw_lumi_served d _ _ _ _ _ H), Hg. now destruct g.
  - rewrite Z.shiftl_mul_pow2 by lia. change (2 ^ 4) with 16. lia.
  - rewrite Z.shiftl_mul_pow2 by lia. change (2 ^ 4) with 16. lia.
  - intros -> ->. reflexivity.
Qed.

(** C5. For each of the four timing modes and any booleans [g] and [m],
    [set_timing_gain] issues one write, of command byte 0x81 followed by
    the data byte (g << 4) | (m << 3) | timing, the timing codes being
    0, 1, 2 and 3; for any other timing value it raises [ValueError] and
    leaves the object, its record of bus transactions included,
    untouched. *)
Theorem set_timing_gain_writes (d : driver) timing (g m : bool) :
  (In timing [T_FAST; T_MEDIUM; T_SLOW; T_MANUAL] ->
   let data := Z.lor (Z.lor (Z.shiftl (Z.b2z g) 4) (Z.shiftl (Z.b2z m) 3))
                     timing in
   let buf := VBytes [0x81; data] in
   wire (snd (set_timing_gain timing (VBool g) (VBool m) d))
   = wire d ++ [Send buf (_addr d) (fst (send buf (_addr d) (_i2c d)))])
  /\ (~ In timing [T_FAST; T_MEDIUM; T_SLOW; T_MANUAL] ->
      set_timing_gain timing (VBool g) (VBool m) d
      = (Raise (ValueError "Wrong value for timing argument!"), d))
  /\ (T_FAST, T_MEDIUM, T_SLOW, T_MANUAL) = (0, 1, 2, 3).
Proof.
  repeat split.
  - intros [<-|[<-|[<-|[<-|[]]]]]; destruct g, m; cbn;
      unfold set_timing_gain, bind, append, ret, assign_gain,
        assign_timing, _send; cbn;
      match goal with
      | |- context [send ?buf ?a ?b] =>
          destruct (send buf a b) as [[errno|] b1]
      end; reflexivity.
  - intros Hn. unfold set_timing_gain.
    destruct (existsb (Z.eqb timing) [T_FAST; T_MEDIUM; T_SLOW; T_MANUAL])
      eqn:E; [|reflexivity].
    exfalso. apply Hn. apply existsb_exists in E as (x & Hx & Ex).
    apply Z.eqb_eq in Ex. now subst.
Qed.

(** C3, as the code has it.  For each of the four timing modes and any
    booleans [g] and [m], [set_timing_gain] assigns the cached gain and
    timing before it issues the write: they hold the new values when the
    call returns and equally when the write raises, and the call returns
    or raises as the write did. *)
Theorem set_timing_gain_caches_before_write (d : driver) timing (g m : bool) :
  In timing [T_FAST; T_MEDIUM; T_SLOW; T_MANUAL] ->
  let data := Z.lor (Z.lor (Z.shiftl (Z.b2z g) 4) (Z.shiftl (Z.b2z m) 3))
                    timing in
  let r := set_timing_gain timing (VBool g) (VBool m) d in
  _gain (snd r) = Some (VBool g)
  /\ _timing (snd r) = Some timing
  /\ fst r = match fst (send (VBytes [0x81; data]) (_addr d) (_i2c d)) with
             | None => Ok tt
             | Some errno => Raise (OSError errno)
             end.
Proof.
  intros [<-|[<-|[<-|[<-|[]]]]]; destruct g, m; cbn;
    unfold set_timing_gain, bind, append, ret, assign_gain,
      assign_timing, _send; cbn;
    match goal with
    | |- context [send ?buf ?a ?b] =>
        destruct (send buf a b) as [[errno|] b1]
    end; repeat split.
Qed.

(** C9. Whatever its argument and whether it returns or raises,
    [set_power_up] leaves the cached gain, the cached timing and the
    device address as they were. *)
Theorem set_power_up_keeps_cache (d : driver) (s : value) :
  let d' := snd (set_power_up s d) in
  _gain d' = _gain d /\ _timing d' = _timing d /\ _addr d' = _addr d.
Proof.
  cbn. destruct (framed_set_power_up s d) as (Ha & Hg & Ht). auto.
Qed.

(** C8. The constructor raises [ValueError] when handed [None] or an
    object that is not an I2C bus, and no object comes to be; on a bus
    whose presence probe at the address (0x39 unless given) answers false
    it raises the not-found exception having issued nothing but the probe;
    and on a bus that serves the exchange it powers the device up, reads
    the acknowledgement, and at once powers it down, which is the last
    transaction issued. *)
Theorem init_outcomes (addr : option Z) :
  let a := match addr with Some a => a | None => 0x39 end in
  __init__ PyNone addr
  = (Raise (ValueError "I2C object needed as argument!"), None)
  /\ (forall v, __init__ (PyOther v) addr
                = (Raise (ValueError "I2C object needed as argument!"), None))
  /\ (forall b b',
         is_ready a b = (false, b') ->
         __init__ (PyI2C b) addr
         = (Raise (PyException
                     ("SHT31 not found on address " ++ HexString.of_Z a)%string),
            Some {| _i2c := b'; _addr := a; _gain := None; _timing := None;
                    wire := [Probe a false] |}))
  /\ (forall b bs b',
         serves b [Probe a true;
                   Send (VBytes [0x80; 3]) a None;
                   Recv 1 a (inl bs);
                   Send (VBytes [0x80; 0]) a None] b' ->
         __init__ (PyI2C b) addr
         = (Ok tt,
            Some {| _i2c := b'; _addr := a; _gain := None; _timing := None;
                    wire := [Probe a true;
                             Send (VBytes [0x80; 3]) a None;
                             Recv 1 a (inl bs);
                             Send (VBytes [0x80; 0]) a None] |})).
Proof.
  intros a. repeat split.
  - intros b b' E. unfold __init__. fold addr_default.
    change (match addr with Some a0 => a0 | None => addr_default end) with a.
    unfold bind at 1. unfold probe. cbn [_addr _i2c]. rewrite E.
    reflexivity.
  - intros b bs b' (b1 & E1 & b2 & E2 & b3 & E3 & b4 & E4 & ->).
    cbn [serves1] in *. unfold __init__.
    change (match addr with Some a0 => a0 | None => addr_default end) with a.
    unfold bind at 1. unfold probe. cbn [_addr _i2c]. rewrite E1.
    cbn [negb]. unfold bind at 1.
    erewrite set_power_up_enable by (cbn; eassumption).
    erewrite set_power_up_disable by (cbn; eassumption).
    reflexivity.
Qed.

(** *** Before the first [set_timing_gain] *)

Lemma init_gain_unset (i2c : handle B) addr r (d : driver) :
  __init__ i2c addr = (r, Some d) -> _gain d = None.
Proof.
  unfold __init__. destruct i2c as [|b|v]; try discriminate.
  set (self := {| _i2c := b; _gain := None |}).
  set (body := bind probe _).
  assert (F : framed B body).
  { unfold body. apply framed_bind; [apply framed_probe|]. intro ready.
    apply framed_if; [apply framed_raise|].
    apply framed_bind; intros; apply framed_set_power_up. }
  specialize (F self). destruct (body self) as [r0 d0].
  cbn [snd] in F. intros [= _ <-]. destruct F as (_ & F & _).
  rewrite F. reflexivity.
Qed.

Lemma set_timing_gain_rejected (d : driver) timing gain manual_start :
  accepted timing gain manual_start = false ->
  snd (set_timing_gain timing gain manual_start d) = d.
Proof.
  unfold accepted, set_timing_gain.
  destruct (existsb (Z.eqb timing) [T_FAST; T_MEDIUM; T_SLOW; T_MANUAL]);
    [|reflexivity].
  destruct (class_eqb (class_of gain) bool_class); [|reflexivity].
  destruct (class_eqb (class_of manual_start) bool_class); [|reflexivity].
  discriminate.
Qed.

Lemma after_call_gain_unset (d : driver) (c : call) :
  configures c = false ->
  _gain (after_call pow d c) = _gain d.
Proof.
  destruct c; cbn; intros H.
  - apply framed_set_power_up.
  - now rewrite set_timing_gain_rejected.
  - apply framed_get_id.
  - apply framed_raw_lumi.
  - apply framed_get_lumi.
Qed.

Lemma after_calls_gain_unset (cs : list call) : forall d : driver,
  existsb configures cs = false ->
  _gain (after_calls pow d cs) = _gain d.
Proof.
  induction cs as [|c cs IH]; intros d H; [reflexivity|].
  cbn in H. apply orb_false_elim in H as [Hc Hcs].
  unfold after_calls in *. cbn [fold_left].
  rewrite IH by assumption. now apply after_call_gain_unset.
Qed.

(** Without a cached gain the raw reading never returns. *)
Lemma raw_lumi_unset_raises (d : driver) :
  _gain d = None -> exists e, fst (_raw_lumi d) = Raise e.
Proof.
  intros Hg.
  destruct (_raw_lumi d) as [[raw|e] d'] eqn:R; [exfalso|now exists e].
  unfold _raw_lumi in R.
  repeat match type of R with
         | bind ?m ?k ?s = (Ok _, _) =>
             let a := fresh "a" in
             let s1 := fresh "s" in
             let R1 := fresh "R" in
             let F := fresh "F" in
             apply bind_returns in R as (a & s1 & R1 & R);
             assert (F : framed B m) by auto with framed;
             specialize (F s); rewrite R1 in F; cbn [snd] in F;
             destruct F as (_ & F & _)
         end.
  unfold attr_gain in *.
  match goal with
  | R : (match _gain ?s with _ => _ end) = (Ok _, _) |- _ =>
      destruct (_gain s) eqn:G; [congruence|discriminate]
  end.
Qed.

Lemma get_lumi_raises (d : driver) e :
  fst (_raw_lumi d) = Raise e -> fst (get_lumi pow d) = Raise e.
Proof.
  unfold get_lumi, bind. destruct (_raw_lumi d) as [[raw|e'] d'];
    cbn; congruence.
Qed.

(** C10, as the code has it.  The constructor does not assign the cached
    gain, and neither does a [set_timing_gain] call that its argument
    checks reject.  On a freshly constructed driver, after any calls none of
    which is a [set_timing_gain] with accepted arguments, the gain is
    unset; neither [_raw_lumi] nor [get_lumi] ever returns a value; and
    once the bus has served the four register reads, what they raise is the
    attribute error for [_gain]. *)
Theorem lumi_before_timing_gain
    (i2c : handle B) addr (d : driver) (cs : list call) :
  __init__ i2c addr = (Ok tt, Some d) ->
  existsb configures cs = false ->
  let d' := after_calls pow d cs in
  _gain d' = None
  /\ (forall raw, fst (_raw_lumi d') <> Ok raw)
  /\ (forall l, fst (get_lumi pow d') <> Ok l)
  /\ (forall r0 r1 r2 r3 b',
         serves (_i2c d') (raw_exchange (_addr d') r0 r1 r2 r3) b' ->
         fst (_raw_lumi d') = Raise (AttributeError "_gain")
         /\ fst (get_lumi pow d') = Raise (AttributeError "_gain")).
Proof.
  intros Hinit Hcs d'.
  assert (Hg : _gain d' = None).
  { unfold d'. rewrite after_calls_gain_unset by assumption.
    eapply init_gain_unset; eassumption. }
  destruct (raw_lumi_unset_raises d' Hg) as (e & He).
  split; [exact Hg|]. split; [|split].
  - intros raw. rewrite He. discriminate.
  - intros l. rewrite (get_lumi_raises _ _ He). discriminate.
  - intros r0 r1 r2 r3 b' H.
    destruct (raw_exchange_bytes _ _ _ _ _ _ _ H)
      as (x0 & x1 & x2 & x3 & [= -> -> -> ->] & _).
    assert (R : fst (_raw_lumi d') = Raise (AttributeError "_gain"))
      by now rewrite (raw_lumi_served d' _ _ _ _ _ H), Hg.
    split; [exact R|]. now apply get_lumi_raises.
Qed.

End Protocol.

(** ** Floats: conversion, division and order *)

Lemma digits2_pos_bounds (p : positive) :
  2 ^ (Zpos (digits2_pos p) - 1) <= Zpos p < 2 ^ Zpos (digits2_pos p).
Proof.
  induction p as [p IH|p IH|]; cbn [digits2_pos].
  - rewrite Pos2Z.inj_succ, (Pos2Z.inj_xI p).
    replace (Z.succ (Zpos (digits2_pos p)) - 1)
      with (Z.succ (Zpos (digits2_pos p) - 1)) by lia.
    rewrite !Z.pow_succ_r by lia. lia.
  - rewrite Pos2Z.inj_succ, (Pos2Z.inj_xO p).
    replace (Z.succ (Zpos (digits2_pos p)) - 1)
      with (Z.succ (Zpos (digits2_pos p) - 1)) by lia.
    rewrite !Z.pow_succ_r by lia. lia.
  - cbn. lia.
Qed.

Lemma Zdigits2_bounds (m : Z) :
  0 < m -> 2 ^ (Zdigits2 m - 1) <= m < 2 ^ Zdigits2 m.
Proof.
  destruct m as [|p|p]; try lia. intros _. apply digits2_pos_bounds.
Qed.

Lemma Zdigits2_ge (m k : Z) : 0 <= k -> 2 ^ k <= m -> k < Zdigits2 m.
Proof.
  intros Hk Hm.
  assert (0 < m) by (pose proof (Z.pow_pos_nonneg 2 k); lia).
  destruct (Zdigits2_bounds m H) as [_ Hu].
  apply (Z.pow_lt_mono_r_iff 2); try lia.
  destruct m; try lia; unfold Zdigits2; lia.
Qed.

Lemma shr_1_m (mrs : shr_record) :
  0 <= shr_m mrs -> shr_m (shr_1 mrs) = shr_m mrs / 2.
Proof.
  destruct mrs as [m r s]. cbn [shr_m].
  destruct m as [|[p|p|]|p]; cbn [shr_1 shr_m]; intros H; try lia.
  - reflexivity.
  - rewrite (Pos2Z.inj_xI p). Z.div_mod_to_equations. lia.
  - rewrite (Pos2Z.inj_xO p). Z.div_mod_to_equations. lia.
  - reflexivity.
Qed.

Lemma iter_shr_1_m (n : positive) : forall mrs,
  0 <= shr_m mrs ->
  shr_m (iter_pos shr_1 n mrs) = shr_m mrs / 2 ^ Zpos n.
Proof.
  induction n as [n IH|n IH|]; intros mrs H; cbn [iter_pos].
  - assert (H1 : 0 <= shr_m (shr_1 mrs)).
    { rewrite shr_1_m by assumption. apply Z.div_pos; lia. }
    assert (H2 : 0 <= shr_m (iter_pos shr_1 n (shr_1 mrs))).
    { rewrite IH by assumption. apply Z.div_pos; [lia|]. apply Z.pow_pos_nonneg; lia. }
    rewrite IH, IH, shr_1_m by assumption.
    rewrite !Z.div_div by (try apply Z.pow_pos_nonneg; lia).
    f_equal. rewrite (Pos2Z.inj_xI n).
    replace (2 * Zpos n + 1) with (1 + Zpos n + Zpos n) by lia.
    rewrite !Z.pow_add_r by lia. lia.
  - assert (H2 : 0 <= shr_m (iter_pos shr_1 n mrs)).
    { rewrite IH by assumption. apply Z.div_pos; [lia|]. apply Z.pow_pos_nonneg; lia. }
    rewrite IH, IH by assumption.
    rewrite !Z.div_div by (try apply Z.pow_pos_nonneg; lia).
    f_equal. rewrite (Pos2Z.inj_xO n).
    replace (2 * Zpos n) with (Zpos n + Zpos n) by lia.
    rewrite !Z.pow_add_r by lia. lia.
  - rewrite shr_1_m by assumption. reflexivity.
Qed.

Lemma shr_record_of_loc_m m l : shr_m (shr_record_of_loc m l) = m.
Proof. destruct l as [|[]]; reflexivity. Qed.

Lemma shr_fexp_normal m e l :
  normal_range m e ->
  normal_range (shr_m (fst (shr_fexp prec emax m e l)))
               (snd (shr_fexp prec emax m e l)).
Proof.
  intros [Hm He]. unfold shr_fexp, shr.
  destruct (Zdigits2_bounds m Hm) as [Hl Hu].
  set (d := Zdigits2 m) in *.
  assert (Hf : fexp prec emax (d + e) - e = d - prec)
    by (unfold fexp, emin, prec, emax in *; lia).
  rewrite Hf.
  destruct (d - prec) as [|n|n] eqn:En; cbn [fst snd];
    rewrite ?shr_record_of_loc_m.
  - now split.
  - rewrite iter_shr_1_m by (rewrite shr_record_of_loc_m; lia).
    rewrite shr_record_of_loc_m.
    assert (Hq : 2 ^ (prec - 1) <= m / 2 ^ Zpos n).
    { apply Z.div_le_lower_bound; [apply Z.pow_pos_nonneg; lia|].
      rewrite <- Z.pow_add_r by (unfold prec; lia).
      replace (Zpos n + (prec - 1)) with (d - 1) by lia. exact Hl. }
    split.
    + pose proof (Z.pow_pos_nonneg 2 (prec - 1)). unfold prec in *. lia.
    + apply Zdigits2_ge in Hq; [|unfold prec; lia]. lia.
  - now split.
Qed.

Lemma round_nearest_even_normal m e l :
  normal_range m e -> normal_range (round_nearest_even m l) e.
Proof.
  intros [Hm He].
  assert (Hr : m <= round_nearest_even m l).
  { destruct l as [|[]]; cbn; try lia. destruct (Z.even m); lia. }
  destruct (Zdigits2_bounds m Hm) as [Hl _].
  split; [lia|].
  assert (Zdigits2 m - 1 < Zdigits2 (round_nearest_even m l)).
  { apply Zdigits2_ge; [|lia]. destruct m; try lia. unfold Zdigits2. lia. }
  lia.
Qed.

Lemma binary_round_aux_positive m e l :
  normal_range m e ->
  positive_float (binary_round_aux prec emax false m e l).
Proof.
  intros H. unfold binary_round_aux.
  pose proof (shr_fexp_normal m e l H) as H1.
  destruct (shr_fexp prec emax m e l) as [mrs' e']. cbn [fst snd] in H1.
  apply (round_nearest_even_normal _ _ (loc_of_shr_record mrs')) in H1.
  pose proof (shr_fexp_normal _ _ loc_Exact H1) as H2.
  destruct (shr_fexp prec emax _ e' loc_Exact) as [mrs'' e''].
  cbn [fst snd] in H2. destruct H2 as [H2 _].
  destruct (shr_m mrs''); try lia.
  now destruct (e'' <=? emax - prec).
Qed.

Lemma digits2_iter_xO (p d : positive) :
  Zpos (digits2_pos (Pos.iter xO p d)) = Zpos (digits2_pos p) + Zpos d.
Proof.
  induction d as [|d IH] using Pos.peano_ind.
  - cbn [Pos.iter digits2_pos]. lia.
  - rewrite Pos.iter_succ. cbn [digits2_pos]. lia.
Qed.

Lemma binary_round_aux_canonical s (m : positive) e :
  Zpos (digits2_pos m) = prec ->
  emin prec emax <= e <= emax - prec ->
  binary_round_aux prec emax s (Zpos m) e loc_Exact = S754_finite s m e.
Proof.
  intros Hd He.
  assert (Hf : fexp prec emax (Zdigits2 (Zpos m) + e) - e = 0).
  { unfold Zdigits2. rewrite Hd. unfold fexp. lia. }
  unfold binary_round_aux, shr_fexp. rewrite Hf.
  cbn [shr shr_record_of_loc shr_m loc_of_shr_record round_nearest_even].
  rewrite Hf. cbn [shr shr_record_of_loc shr_m].
  destruct (Z.leb_spec e (emax - prec)); [reflexivity|lia].
Qed.

Lemma Zdigits2_le (a k : Z) : 0 < a < 2 ^ k -> 0 < Zdigits2 a <= k.
Proof.
  intros [Ha Hk]. destruct (Zdigits2_bounds a Ha) as [Hl _].
  assert (0 < Zdigits2 a) by (destruct a; try lia; unfold Zdigits2; lia).
  split; [assumption|].
  assert (0 <= k) by (destruct k; try lia; cbn in Hk; lia).
  assert (Zdigits2 a - 1 < k); [|lia].
  apply (Z.pow_lt_mono_r_iff 2); lia.
Qed.

Lemma of_int_finite (a : Z) :
  0 < a < 2 ^ 52 ->
  of_int a = S754_finite false (mantissa a) (exponent a)
  /\ Zpos (digits2_pos (mantissa a)) = prec.
Proof.
  intros Ha. pose proof (Zdigits2_le a 52 Ha) as Hd.
  destruct a as [|p|p]; try lia.
  unfold mantissa, exponent in *. unfold Zdigits2 in *. cbn [Z.to_pos].
  set (dp := Zpos (digits2_pos p)) in *.
  assert (Hm : Zpos (digits2_pos (Pos.iter xO p (Z.to_pos (prec - dp)))) = prec).
  { rewrite digits2_iter_xO. fold dp. rewrite Z2Pos.id; unfold prec; lia. }
  split; [|exact Hm].
  unfold of_int, binary_normalize, binary_round, shl_align. fold dp.
  assert (Hf : fexp prec emax (dp + 0) - 0 = Zneg (Z.to_pos (prec - dp))).
  { unfold fexp, emin, prec, emax. rewrite <- Pos2Z.opp_pos, Z2Pos.id; lia. }
  rewrite Hf.
  replace (fexp prec emax (dp + 0)) with (dp - prec)
    by (unfold fexp, emin, prec, emax; lia).
  apply binary_round_aux_canonical; [exact Hm|].
  unfold emin, prec, emax. lia.
Qed.

Lemma fdiv_finite_positive mx ex my ey :
  Zpos (digits2_pos mx) = prec ->
  Zpos (digits2_pos my) = prec ->
  - 1000 <= ex - ey ->
  positive_float (fdiv (S754_finite false mx ex) (S754_finite false my ey)).
Proof.
  intros Hx Hy He. unfold fdiv, SFdiv, SFdiv_core_binary.
  unfold Zdigits2. rewrite Hx, Hy.
  set (e' := Z.min _ _).
  assert (He' : e' = ex - ey - prec)
    by (unfold e', fexp, emin, prec, emax; lia).
  replace (ex - ey - e') with prec by lia.
  change (match prec with Zpos _ => Z.shiftl (Zpos mx) prec | _ => _ end)
    with (Z.shiftl (Zpos mx) prec).
  rewrite Z.shiftl_mul_pow2 by (unfold prec; lia).
  pose proof (digits2_pos_bounds mx) as [Hxl Hxu].
  pose proof (digits2_pos_bounds my) as [Hyl Hyu].
  rewrite Hx in *. rewrite Hy in *.
  pose proof (Z_div_mod (Zpos mx * 2 ^ prec) (Zpos my) eq_refl) as Hdiv.
  destruct (Z.div_eucl (Zpos mx * 2 ^ prec) (Zpos my)) as [q r].
  cbn [xorb]. apply binary_round_aux_positive.
  destruct Hdiv as [Hq Hr].
  assert (Hq52 : 2 ^ (prec - 1) <= q).
  { unfold prec in *. change (2 ^ (53 - 1)) with 4503599627370496 in *.
    change (2 ^ 53) with 9007199254740992 in *. nia. }
  split.
  - unfold prec in *. change (2 ^ (53 - 1)) with 4503599627370496 in *. lia.
  - apply Zdigits2_ge in Hq52; [|unfold prec; lia].
    unfold emin, prec, emax in *. lia.
Qed.

Lemma ratio_positive (a b : Z) :
  0 < a < 2 ^ 52 -> 0 < b < 2 ^ 52 ->
  positive_float (fdiv (of_int a) (of_int b)).
Proof.
  intros Ha Hb.
  destruct (of_int_finite a Ha) as [-> Hma].
  destruct (of_int_finite b Hb) as [-> Hmb].
  apply fdiv_finite_positive; try assumption.
  pose proof (Zdigits2_le a 52 Ha). pose proof (Zdigits2_le b 52 Hb).
  unfold exponent, prec. lia.
Qed.

Lemma flt_zero_positive (c : float) :
  positive_float c -> flt (of_int 0) c = true.
Proof. destruct c as [|[]| |[] m e]; cbn; intros H; now try destruct H. Qed.

Lemma fdiv_shift sx mx ex sy my ey t :
  fdiv (S754_finite sx mx (ex + t)) (S754_finite sy my (ey + t))
  = fdiv (S754_finite sx mx ex) (S754_finite sy my ey).
Proof.
  unfold fdiv, SFdiv, SFdiv_core_binary.
  replace (Zdigits2 (Zpos mx) + (ex + t) - (Zdigits2 (Zpos my) + (ey + t)))
    with (Zdigits2 (Zpos mx) + ex - (Zdigits2 (Zpos my) + ey)) by lia.
  replace (ex + t - (ey + t)) with (ex - ey) by lia.
  reflexivity.
Qed.

Lemma of_int_double (a : Z) :
  0 < a < 2 ^ 51 ->
  mantissa (2 * a) = mantissa a /\ exponent (2 * a) = exponent a + 1.
Proof.
  intros Ha. pose proof (Zdigits2_le a 51 Ha) as Hd.
  destruct a as [|p|p]; try lia.
  change (2 * Zpos p) with (Zpos p~0).
  unfold mantissa, exponent, Zdigits2 in *. cbn [Z.to_pos digits2_pos].
  rewrite Pos2Z.inj_succ. split; [|lia].
  set (dp := Zpos (digits2_pos p)) in *.
  replace (Z.to_pos (prec - dp)) with (Pos.succ (Z.to_pos (prec - Z.succ dp))).
  - now rewrite Pos.iter_succ_r.
  - rewrite <- Z2Pos.inj_succ by (unfold prec; lia). f_equal. lia.
Qed.

Lemma of_int_shift4 (a : Z) :
  0 < a < 2 ^ 48 ->
  mantissa (Z.shiftl a 4) = mantissa a
  /\ exponent (Z.shiftl a 4) = exponent a + 4.
Proof.
  intros Ha.
  replace (Z.shiftl a 4) with (2 * (2 * (2 * (2 * a))))
    by (rewrite Z.shiftl_mul_pow2 by lia; change (2 ^ 4) with 16; lia).
  change (2 ^ 48) with 281474976710656 in Ha.
  destruct (of_int_double a) as [M1 E1];
    [change (2 ^ 51) with 2251799813685248; lia|].
  destruct (of_int_double (2 * a)) as [M2 E2];
    [change (2 ^ 51) with 2251799813685248; lia|].
  destruct (of_int_double (2 * (2 * a))) as [M3 E3];
    [change (2 ^ 51) with 2251799813685248; lia|].
  destruct (of_int_double (2 * (2 * (2 * a)))) as [M4 E4];
    [change (2 ^ 51) with 2251799813685248; lia|].
  split; [congruence|lia].
Qed.

(** Shifting both channels leaves their ratio as it was. *)
Lemma ratio_shift4 (a b : Z) :
  0 < a < 2 ^ 48 -> 0 < b < 2 ^ 48 ->
  fdiv (of_int (Z.shiftl a 4)) (of_int (Z.shiftl b 4))
  = fdiv (of_int a) (of_int b).
Proof.
  intros Ha Hb.
  change (2 ^ 48) with 281474976710656 in *.
  assert (Ha4 : 0 < Z.shiftl a 4 < 2 ^ 52)
    by (rewrite Z.shiftl_mul_pow2 by lia;
        change (2 ^ 4) with 16; change (2 ^ 52) with 4503599627370496; lia).
  assert (Hb4 : 0 < Z.shiftl b 4 < 2 ^ 52)
    by (rewrite Z.shiftl_mul_pow2 by lia;
        change (2 ^ 4) with 16; change (2 ^ 52) with 4503599627370496; lia).
  destruct (of_int_finite _ Ha4) as [-> _].
  destruct (of_int_finite _ Hb4) as [-> _].
  destruct (of_int_finite a) as [-> _];
    [change (2 ^ 52) with 4503599627370496; lia|].
  destruct (of_int_finite b) as [-> _];
    [change (2 ^ 52) with 4503599627370496; lia|].
  destruct (of_int_shift4 a) as [-> ->]; [assumption|].
  destruct (of_int_shift4 b) as [-> ->]; [assumption|].
  apply fdiv_shift.
Qed.

(** Order on positive floats *)
Lemma fle_false_flt (c x : float) :
  positive_float c -> positive_float x -> fle c x = false -> flt x c = true.
Proof.
  destruct c as [|[]| |[] m1 e1]; cbn; try tauto;
    destruct x as [|[]| |[] m2 e2]; cbn; try tauto; try discriminate;
    intros _ _; unfold fle, flt, SFleb, SFltb, SFcompare;
    try reflexivity.
  rewrite (Z.compare_antisym e1 e2).
  change (Pos.compare_cont Eq m1 m2) with (Pos.compare m1 m2).
  change (Pos.compare_cont Eq m2 m1) with (Pos.compare m2 m1).
  rewrite (Pos.compare_antisym m1 m2).
  destruct (e1 ?= e2); cbn; try discriminate; try reflexivity.
  destruct (m1 ?= m2)%positive; cbn; try discriminate; reflexivity.
Qed.

Lemma flt_fle_false (c x : float) :
  flt x c = true -> fle c x = false.
Proof.
  destruct c as [[]|[]| |[] m1 e1]; destruct x as [[]|[]| |[] m2 e2];
    unfold fle, flt, SFleb, SFltb, SFcompare; try discriminate;
    try reflexivity;
    rewrite (Z.compare_antisym e1 e2);
    change (Pos.compare_cont Eq m1 m2) with (Pos.compare m1 m2);
    change (Pos.compare_cont Eq m2 m1) with (Pos.compare m2 m1);
    rewrite (Pos.compare_antisym m1 m2);
    destruct (e1 ?= e2); cbn; try discriminate; try reflexivity;
    destruct (m1 ?= m2)%positive; cbn; try discriminate; reflexivity.
Qed.

Lemma flt_finite m1 e1 m2 e2 :
  flt (S754_finite false m1 e1) (S754_finite false m2 e2) = true
  <-> e1 < e2 \/ (e1 = e2 /\ (m1 < m2)%positive).
Proof.
  unfold flt, SFltb, SFcompare.
  change (Pos.compare_cont Eq m1 m2) with (Pos.compare m1 m2).
  destruct (Z.compare_spec e1 e2); destruct (Pos.compare_spec m1 m2);
    split; intros H'; try discriminate; try reflexivity; lia.
Qed.

Lemma fle_finite m1 e1 m2 e2 :
  fle (S754_finite false m1 e1) (S754_finite false m2 e2) = true
  <-> e1 < e2 \/ (e1 = e2 /\ (m1 <= m2)%positive).
Proof.
  unfold fle, SFleb, SFcompare.
  change (Pos.compare_cont Eq m1 m2) with (Pos.compare m1 m2).
  destruct (Z.compare_spec e1 e2); destruct (Pos.compare_spec m1 m2);
    split; intros H'; try discriminate; try reflexivity; lia.
Qed.

Lemma fle_flt_trans (x y c : float) :
  positive_float x -> positive_float y -> positive_float c ->
  fle x y = true -> flt y c = true -> flt x c = true.
Proof.
  destruct x as [|[]| |[] m1 e1]; cbn [positive_float]; try tauto;
    destruct y as [|[]| |[] m2 e2]; cbn [positive_float]; try tauto;
    destruct c as [|[]| |[] m3 e3]; cbn [positive_float]; try tauto;
    intros _ _ _;
    first [ rewrite fle_finite, !flt_finite; lia
          | cbn; intros; first [discriminate | reflexivity] ].
Qed.

Lemma allb_spec f n : forall k,
  allb f n k = true -> forall j, k <= j < k + Z.of_nat n -> f j = true.
Proof.
  induction n as [|n IH]; intros k H j Hj; [lia|].
  cbn [allb] in H. apply andb_prop in H as [H0 H1].
  destruct (Z.eq_dec j k) as [->|Hne]; [assumption|].
  apply (IH (k + 1)); [assumption|lia].
Qed.

(** Every pair of 16-bit channels in ratio 1/2, 61/100, 4/5 or 13/10 takes
    the first, second, third or fourth arm. *)
Lemma exact_0_5 : allb (exact_ratio_band 1 2 1) (Z.to_nat 32767) 1 = true.
Proof. vm_compute. reflexivity. Qed.

Lemma exact_0_61 : allb (exact_ratio_band 61 100 2) (Z.to_nat 655) 1 = true.
Proof. vm_compute. reflexivity. Qed.

Lemma exact_0_8 : allb (exact_ratio_band 4 5 3) (Z.to_nat 13107) 1 = true.
Proof. vm_compute. reflexivity. Qed.

Lemma exact_1_3 : allb (exact_ratio_band 13 10 4) (Z.to_nat 5041) 1 = true.
Proof. vm_compute. reflexivity. Qed.

Lemma exact_ratio (p q i n : Z) (a0 a1 : Z) :
  allb (exact_ratio_band p q i) (Z.to_nat n) 1 = true ->
  Z.gcd q p = 1 -> 0 < q -> 0 < p ->
  0 < a0 -> 0 < a1 ->
  a0 < q * (n + 1) \/ a1 < p * (n + 1) ->
  q * a1 = p * a0 ->
  band (fdiv (of_int a1) (of_int a0)) = i.
Proof.
  intros Hall Hgcd Hq Hp Ha0 Ha1 Hn E.
  assert (D : (q | a0)).
  { apply (Z.gauss q p a0); [|assumption]. exists a1. lia. }
  destruct D as [k ->].
  assert (Hk : a1 = p * k) by nia. subst a1.
  assert (Hpos : 0 < k) by nia.
  assert (Hle : k <= n) by nia.
  pose proof (allb_spec _ _ _ Hall k ltac:(lia)) as Hb.
  unfold exact_ratio_band in Hb. apply Z.eqb_eq in Hb.
  now rewrite (Z.mul_comm k q).
Qed.

(** ** The lux approximation *)

Section Luminosity.
Context {B : Type} `{Bus : I2C B}.
Variable pow : float -> float -> float.

Let driver : Type := TSL2561 B.

(** With a nonzero first channel and a ratio above zero, [lux] is the arm
    of the chain the ratio selects. *)
Lemma lux_band (c0 c1 : Z) :
  c0 <> 0 ->
  positive_float (fdiv (of_int c1) (of_int c0)) ->
  let c := fdiv (of_int c1) (of_int c0) in
  lux pow (c0, c1)
  = Ok (match band c with
        | 1 => Float (fsub (fmul (dec 304 10000) (of_int c0))
                           (fmul (fmul (dec 62 1000) (of_int c0))
                                 (pow c (dec 14 10))))
        | 2 => Float (fsub (fmul (dec 224 10000) (of_int c0))
                           (fmul (dec 31 1000) (of_int c1)))
        | 3 => Float (fsub (fmul (dec 128 10000) (of_int c0))
                           (fmul (dec 153 10000) (of_int c1)))
        | 4 => Float (fsub (fmul (dec 146 100000) (of_int c0))
                           (fmul (dec 112 100000) (of_int c1)))
        | _ => Int 0
        end).
Proof.
  intros Hne Hpos c. unfold lux, truediv, band. cbn [fst snd].
  rewrite (proj2 (Z.eqb_neq c0 0) Hne). cbn [negb]. fold c.
  rewrite (flt_zero_positive c Hpos).
  change (dec 5 10) with bound_0_5. change (dec 61 100) with bound_0_61.
  change (dec 8 10) with bound_0_8. change (dec 13 10) with bound_1_3.
  destruct (fle c bound_0_5); [reflexivity|].
  destruct (fle c bound_0_61); [reflexivity|].
  destruct (fle c bound_0_8); [reflexivity|].
  destruct (fle c bound_1_3); reflexivity.
Qed.

(** The arm taken, read off the comparisons with the four bounds. *)
Lemma band_cases (c : float) :
  positive_float c ->
  (fle c bound_0_5 = true -> band c = 1)
  /\ (flt bound_0_5 c = true -> fle c bound_0_61 = true -> band c = 2)
  /\ (flt bound_0_61 c = true -> fle c bound_0_8 = true -> band c = 3)
  /\ (flt bound_0_8 c = true -> fle c bound_1_3 = true -> band c = 4)
  /\ (flt bound_1_3 c = true <-> band c = 5).
Proof.
  intros Hc.
  assert (T : forall x y, positive_float x -> positive_float y ->
                          fle x y = true -> flt y c = true ->
                          fle c x = false).
  { intros x y Hx Hy Hxy Hyc. apply flt_fle_false.
    now apply (fle_flt_trans x y c). }
  assert (P1 : positive_float bound_0_5) by exact I.
  assert (P2 : positive_float bound_0_61) by exact I.
  assert (P3 : positive_float bound_0_8) by exact I.
  assert (P4 : positive_float bound_1_3) by exact I.
  unfold band. repeat split.
  - now intros ->.
  - intros H1 ->. now rewrite (flt_fle_false _ _ H1).
  - intros H2 ->.
    rewrite (T bound_0_5 bound_0_61 P1 P2 eq_refl H2).
    now rewrite (flt_fle_false _ _ H2).
  - intros H3 ->.
    rewrite (T bound_0_5 bound_0_8 P1 P3 eq_refl H3).
    rewrite (T bound_0_61 bound_0_8 P2 P3 eq_refl H3).
    now rewrite (flt_fle_false _ _ H3).
  - intros H4.
    rewrite (T bound_0_5 bound_1_3 P1 P4 eq_refl H4).
    rewrite (T bound_0_61 bound_1_3 P2 P4 eq_refl H4).
    rewrite (T bound_0_8 bound_1_3 P3 P4 eq_refl H4).
    now rewrite (flt_fle_false _ _ H4).
  - destruct (fle c bound_0_5); [discriminate|].
    destruct (fle c bound_0_61); [discriminate|].
    destruct (fle c bound_0_8); [discriminate|].
    destruct (fle c bound_1_3) eqn:E; [discriminate|].
    intros _. now apply fle_false_flt.
Qed.

(** The channels handed to the formula: 16-bit readings, as they are with
    the gain on and shifted left by four with the gain off. *)
Lemma channel_range (g : bool) (a : Z) :
  0 <= a < 65536 ->
  let ch := if g then a else Z.shiftl a 4 in
  0 <= ch < 2 ^ 48 /\ (ch = 0 <-> a = 0) /\ (ch = a \/ ch = 16 * a).
Proof.
  intros Ha ch. change (2 ^ 48) with 281474976710656.
  assert (S : Z.shiftl a 4 = 16 * a)
    by (rewrite Z.shiftl_mul_pow2 by lia; change (2 ^ 4) with 16; lia).
  unfold ch. destruct g; lia.
Qed.

Lemma channel_ratio (g : bool) (a0 a1 : Z) :
  0 < a0 < 65536 -> 0 < a1 < 65536 ->
  fdiv (of_int (if g then a1 else Z.shiftl a1 4))
       (of_int (if g then a0 else Z.shiftl a0 4))
  = fdiv (of_int a1) (of_int a0)
  /\ positive_float (fdiv (of_int a1) (of_int a0)).
Proof.
  intros H0 H1. split.
  - destruct g; [reflexivity|].
    apply ratio_shift4; change (2 ^ 48) with 281474976710656; lia.
  - apply ratio_positive; change (2 ^ 52) with 4503599627370496; lia.
Qed.

Lemma band_values (c : float) :
  band c = 1 \/ band c = 2 \/ band c = 3 \/ band c = 4 \/ band c = 5.
Proof.
  unfold band.
  destruct (fle c bound_0_5); [tauto|].
  destruct (fle c bound_0_61); [tauto|].
  destruct (fle c bound_0_8); [tauto|].
  destruct (fle c bound_1_3); tauto.
Qed.

(** [get_lumi] on a bus that serves the reading: the formula applied to the
    channels [_raw_lumi] returns. *)
Lemma get_lumi_served (d : driver) (g : bool) c0_l c0_h c1_l c1_h b' :
  _gain d = Some (VBool g) ->
  serves (_i2c d) (raw_exchange (_addr d) [c0_l] [c0_h] [c1_l] [c1_h]) b' ->
  fst (get_lumi pow d)
  = lux pow (if g then c0_h * 256 + c0_l else Z.shiftl (c0_h * 256 + c0_l) 4,
             if g then c1_h * 256 + c1_l else Z.shiftl (c1_h * 256 + c1_l) 4).
Proof.
  intros Hg H. unfold get_lumi, bind.
  rewrite (raw_lumi_served d _ _ _ _ _ H), Hg. cbn [truthy].
  destruct g; cbn [negb]; destruct (lux pow _); reflexivity.
Qed.

(** The formula never raises, and gives the int [0] exactly when the first
    channel is zero, the second is zero, or the ratio is above 1.3. *)
Lemma lux_sentinel (g : bool) (a0 a1 : Z) :
  0 <= a0 < 65536 -> 0 <= a1 < 65536 ->
  let ch0 := if g then a0 else Z.shiftl a0 4 in
  let ch1 := if g then a1 else Z.shiftl a1 4 in
  (exists l, lux pow (ch0, ch1) = Ok l)
  /\ (lux pow (ch0, ch1) = Ok (Int 0)
      <-> ch0 = 0 \/ ch1 = 0
          \/ flt (dec 13 10) (fdiv (of_int ch1) (of_int ch0)) = true).
Proof.
  intros H0 H1 ch0 ch1.
  destruct (channel_range g a0 H0) as (R0 & Z0 & _).
  destruct (channel_range g a1 H1) as (R1 & Z1 & _).
  fold ch0 in R0, Z0. fold ch1 in R1, Z1.
  destruct (Z.eq_dec ch0 0) as [E0|N0].
  { assert (L : lux pow (ch0, ch1) = Ok (Int 0))
      by (unfold lux; cbn [fst]; now rewrite E0).
    rewrite L. split; [now exists (Int 0)|tauto]. }
  destruct (Z.eq_dec ch1 0) as [E1|N1].
  { assert (L : lux pow (ch0, ch1) = Ok (Int 0)).
    { unfold lux, truediv. cbn [fst snd].
      rewrite (proj2 (Z.eqb_neq ch0 0) N0), E1. cbn [negb].
      destruct (of_int_finite ch0) as [-> _];
        [change (2 ^ 48) with 281474976710656 in R0;
         change (2 ^ 52) with 4503599627370496; lia|].
      reflexivity. }
    rewrite L. split; [now exists (Int 0)|tauto]. }
  assert (P0 : 0 < a0 < 65536) by lia.
  assert (P1 : 0 < a1 < 65536) by lia.
  destruct (channel_ratio g a0 a1 P0 P1) as [Hc Hp].
  fold ch0 ch1 in Hc. rewrite <- Hc in Hp.
  rewrite (lux_band ch0 ch1 N0 Hp).
  destruct (band_cases _ Hp) as (_ & _ & _ & _ & B5).
  change (dec 13 10) with bound_1_3.
  split; [eexists; reflexivity|].
  destruct (band_values (fdiv (of_int ch1) (of_int ch0)))
    as [E|[E|[E|[E|E]]]]; rewrite E in *.
  1-4: split; [discriminate|].
  1-4: intros [?|[?|F]]; try contradiction;
       apply B5 in F; discriminate.
  split; [intros _|reflexivity]. right. right. now apply B5.
Qed.

(** *** Claims *)

(** C1. With both channels above zero, [get_lumi] forms the ratio
    c = channel1 / channel0 and picks the formula by inclusive upper
    bounds: c <= 0.5 gives 0.0304*ch0 - 0.062*ch0*pow(c, 1.4); above 0.5 and
    up to 0.61, 0.0224*ch0 - 0.031*ch1; above 0.61 and up to 0.8,
    0.0128*ch0 - 0.0153*ch1; above 0.8 and up to 1.3,
    0.00146*ch0 - 0.00112*ch1.  Channels in the exact ratios 1/2, 61/100,
    4/5 and 13/10 take the first, second, third and fourth formula. *)
Theorem get_lumi_branches (d : driver) (g : bool) c0_l c0_h c1_l c1_h b' :
  _gain d = Some (VBool g) ->
  serves (_i2c d) (raw_exchange (_addr d) [c0_l] [c0_h] [c1_l] [c1_h]) b' ->
  let ch0 := if g then c0_h * 256 + c0_l
             else Z.shiftl (c0_h * 256 + c0_l) 4 in
  let ch1 := if g then c1_h * 256 + c1_l
             else Z.shiftl (c1_h * 256 + c1_l) 4 in
  0 < ch0 -> 0 < ch1 ->
  let c := fdiv (of_int ch1) (of_int ch0) in
  let lux1 := Float (fsub (fmul (dec 304 10000) (of_int ch0))
                          (fmul (fmul (dec 62 1000) (of_int ch0))
                                (pow c (dec 14 10)))) in
  let lux2 := Float (fsub (fmul (dec 224 10000) (of_int ch0))
                          (fmul (dec 31 1000) (of_int ch1))) in
  let lux3 := Float (fsub (fmul (dec 128 10000) (of_int ch0))
                          (fmul (dec 153 10000) (of_int ch1))) in
  let lux4 := Float (fsub (fmul (dec 146 100000) (of_int ch0))
                          (fmul (dec 112 100000) (of_int ch1))) in
  let l := fst (get_lumi pow d) in
  (fle c (dec 5 10) = true -> l = Ok lux1)
  /\ (flt (dec 5 10) c = true -> fle c (dec 61 100) = true -> l = Ok lux2)
  /\ (flt (dec 61 100) c = true -> fle c (dec 8 10) = true -> l = Ok lux3)
  /\ (flt (dec 8 10) c = true -> fle c (dec 13 10) = true -> l = Ok lux4)
  /\ (2 * ch1 = ch0 -> l = Ok lux1)
  /\ (100 * ch1 = 61 * ch0 -> l = Ok lux2)
  /\ (5 * ch1 = 4 * ch0 -> l = Ok lux3)
  /\ (10 * ch1 = 13 * ch0 -> l = Ok lux4).
Proof.
  intros Hg H ch0 ch1 H0 H1 c lux1 lux2 lux3 lux4 l.
  destruct (raw_exchange_bytes _ _ _ _ _ _ _ H)
    as (x0 & x1 & x2 & x3 & [= <- <- <- <-] & B0 & B1 & B2 & B3).
  set (a0 := c0_h * 256 + c0_l) in *.
  set (a1 := c1_h * 256 + c1_l) in *.
  assert (A0 : 0 <= a0 < 65536) by (unfold a0; lia).
  assert (A1 : 0 <= a1 < 65536) by (unfold a1; lia).
  destruct (channel_range g a0 A0) as (_ & Z0 & S0).
  destruct (channel_range g a1 A1) as (_ & Z1 & S1).
  fold ch0 in Z0, S0. fold ch1 in Z1, S1.
  assert (P0 : 0 < a0 < 65536) by lia.
  assert (P1 : 0 < a1 < 65536) by lia.
  destruct (channel_ratio g a0 a1 P0 P1) as [Hc Hp].
  fold ch0 ch1 c in Hc. rewrite <- Hc in Hp.
  assert (L : l = lux pow (ch0, ch1))
    by (unfold l; now rewrite (get_lumi_served d g _ _ _ _ _ Hg H)).
  rewrite (lux_band ch0 ch1 ltac:(lia) Hp) in L. fold c in L.
  destruct (band_cases c Hp) as (C1 & C2 & C3 & C4 & _).
  change (dec 5 10) with bound_0_5. change (dec 61 100) with bound_0_61.
  change (dec 8 10) with bound_0_8. change (dec 13 10) with bound_1_3.
  assert (Same : (ch0 = a0 /\ ch1 = a1) \/ (ch0 = 16 * a0 /\ ch1 = 16 * a1))
    by (unfold ch0, ch1; destruct g;
        [left; split; reflexivity
        |right; rewrite !Z.shiftl_mul_pow2 by lia;
         change (2 ^ 4) with 16; lia]).
  repeat split.
  - intros F. now rewrite (C1 F) in L.
  - intros F G. now rewrite (C2 F G) in L.
  - intros F G. now rewrite (C3 F G) in L.
  - intros F G. now rewrite (C4 F G) in L.
  - intros E.
    assert (K : band c = 1)
      by (rewrite Hc; apply (exact_ratio 1 2 1 32767 a0 a1 exact_0_5);
          [reflexivity|lia..]).
    now rewrite K in L.
  - intros E.
    assert (K : band c = 2)
      by (rewrite Hc; apply (exact_ratio 61 100 2 655 a0 a1 exact_0_61);
          [reflexivity|lia..]).
    now rewrite K in L.
  - intros E.
    assert (K : band c = 3)
      by (rewrite Hc; apply (exact_ratio 4 5 3 13107 a0 a1 exact_0_8);
          [reflexivity|lia..]).
    now rewrite K in L.
  - intros E.
    assert (K : band c = 4)
      by (rewrite Hc; apply (exact_ratio 13 10 4 5041 a0 a1 exact_1_3);
          [reflexivity|lia..]).
    now rewrite K in L.
Qed.

(** C6. [get_lumi] does not raise on a served reading, and it returns the
    int [0] it starts from in exactly three cases: channel 0 is zero
    (whatever channel 1), channel 1 is zero (the ratio is then zero), or the
    ratio channel1 / channel0 is above 1.3. *)
Theorem get_lumi_sentinel (d : driver) (g : bool) c0_l c0_h c1_l c1_h b' :
  _gain d = Some (VBool g) ->
  serves (_i2c d) (raw_exchange (_addr d) [c0_l] [c0_h] [c1_l] [c1_h]) b' ->
  let ch0 := if g then c0_h * 256 + c0_l
             else Z.shiftl (c0_h * 256 + c0_l) 4 in
  let ch1 := if g then c1_h * 256 + c1_l
             else Z.shiftl (c1_h * 256 + c1_l) 4 in
  (exists l, fst (get_lumi pow d) = Ok l)
  /\ (fst (get_lumi pow d) = Ok (Int 0)
      <-> ch0 = 0 \/ ch1 = 0
          \/ flt (dec 13 10) (fdiv (of_int ch1) (of_int ch0)) = true).
Proof.
  intros Hg H ch0 ch1.
  destruct (raw_exchange_bytes _ _ _ _ _ _ _ H)
    as (x0 & x1 & x2 & x3 & [= <- <- <- <-] & B0 & B1 & B2 & B3).
  rewrite (get_lumi_served d g _ _ _ _ _ Hg H).
  apply lux_sentinel; lia.
Qed.

End Luminosity.

(** ** The claims on a scripted bus *)

(** C2. Asked to power up a device that reads back 0x00, [set_power_up]
    writes the command byte 0x80 and the data byte 0x03, reads one byte, and
    returns normally: the readback is compared as a buffer with the int
    0b11, which never holds, so no failure is ever raised over it. *)
Theorem set_power_up_ignores_readback :
  set_power_up (VBool true) (mock_driver (answering [[0x00]]))
  = (Ok tt,
     {| _i2c := answering []; _addr := 0x39; _gain := None; _timing := None;
        wire := [Send (VBytes [0x80; 0x03]) 0x39 None;
                 Recv 1 0x39 (inl [0x00])] |}).
Proof. reflexivity. Qed.

(** C3 fails as stated: a write that raises leaves the cache holding the
    new gain and timing, not the ones cached before the call. *)
Lemma set_timing_gain_failed_write_changes_cache :
  let d := mock_configured false T_FAST
             {| present := true; acks := [Some 5]; replies := [] |} in
  let r := set_timing_gain T_SLOW (VBool true) (VBool false) d in
  fst r = Raise (OSError 5)
  /\ wire (snd r) = [Send (VBytes [0x81; 0x12]) 0x39 (Some 5)]
  /\ ~ (_gain (snd r) = _gain d /\ _timing (snd r) = _timing d).
Proof.
  cbn. repeat split. intros [H _]. discriminate.
Qed.

Lemma set_timing_gain_caches_before_write_witness :
  let d := mock_configured false T_FAST
             {| present := true; acks := [Some 5]; replies := [] |} in
  let r := set_timing_gain T_SLOW (VBool true) (VBool false) d in
  In T_SLOW [T_FAST; T_MEDIUM; T_SLOW; T_MANUAL]
  /\ _gain (snd r) = Some (VBool true)
  /\ _timing (snd r) = Some T_SLOW
  /\ fst r = Raise (OSError 5).
Proof.
  intros d r.
  assert (V : In T_SLOW [T_FAST; T_MEDIUM; T_SLOW; T_MANUAL])
    by (right; right; left; reflexivity).
  split; [exact V|].
  exact (set_timing_gain_caches_before_write d T_SLOW true false V).
Defined.

Lemma get_id_decodes_witness :
  serves (answering [[0xA5]])
    [Send (VBytes [0x8A]) 0x39 None; Recv 1 0x39 (inl [0xA5])] (answering [])
  /\ fst (get_id (mock_driver (answering [[0xA5]]))) = Ok (10, 5).
Proof.
  assert (S : serves (answering [[0xA5]])
                [Send (VBytes [0x8A]) 0x39 None; Recv 1 0x39 (inl [0xA5])]
                (answering []))
    by (cbn; repeat (eexists; split; [reflexivity|]); reflexivity).
  split; [exact S|].
  destruct (get_id_decodes (mock_driver (answering [[0xA5]])) [0xA5]
              (answering []) S) as (x & E & _ & K).
  apply K. now injection E as <-.
Defined.

Lemma raw_lumi_reconstructs_witness :
  let d := mock_configured false T_SLOW
             (answering [[0x34]; [0x12]; [0xFF]; [0x00]]) in
  serves (_i2c d) (raw_exchange 0x39 [0x34] [0x12] [0xFF] [0x00])
    (answering [])
  /\ fst (_raw_lumi d) = Ok (74560, 4080).
Proof.
  intros d.
  assert (S : serves (_i2c d) (raw_exchange 0x39 [0x34] [0x12] [0xFF] [0x00])
                (answering []))
    by (cbn; repeat (eexists; split; [reflexivity|]); reflexivity).
  split; [exact S|].
  exact (proj1 (raw_lumi_reconstructs d false 0x34 0x12 0xFF 0x00
                  (answering []) eq_refl S)).
Defined.

Lemma set_timing_gain_writes_witness :
  let d := mock_driver (answering []) in
  (In T_SLOW [T_FAST; T_MEDIUM; T_SLOW; T_MANUAL]
   /\ wire (snd (set_timing_gain T_SLOW (VBool true) (VBool false) d))
      = [Send (VBytes [0x81; 0x12]) 0x39 None])
  /\ (~ In 7 [T_FAST; T_MEDIUM; T_SLOW; T_MANUAL]
      /\ set_timing_gain 7 (VBool true) (VBool false) d
         = (Raise (ValueError "Wrong value for timing argument!"), d)).
Proof.
  intros d.
  assert (V : In T_SLOW [T_FAST; T_MEDIUM; T_SLOW; T_MANUAL])
    by (right; right; left; reflexivity).
  assert (N : ~ In 7 [T_FAST; T_MEDIUM; T_SLOW; T_MANUAL])
    by (cbn; intros [H|[H|[H|[H|[]]]]]; discriminate).
  destruct (set_timing_gain_writes d T_SLOW true false) as (W & _ & _).
  destruct (set_timing_gain_writes d 7 true false) as (_ & R & _).
  split; split; [exact V|exact (W V)|exact N|exact (R N)].
Defined.

Lemma init_outcomes_witness :
  (serves (answering [[0x03]])
     [Probe 0x39 true; Send (VBytes [0x80; 3]) 0x39 None;
      Recv 1 0x39 (inl [0x03]); Send (VBytes [0x80; 0]) 0x39 None]
     (answering [])
   /\ fst (__init__ (PyI2C (answering [[0x03]])) None) = Ok tt)
  /\ (is_ready 0x39 {| present := false; acks := []; replies := [] |}
      = (false, {| present := false; acks := []; replies := [] |})
      /\ fst (__init__
                (PyI2C {| present := false; acks := []; replies := [] |})
                None)
         = Raise (PyException "SHT31 not found on address 0x39")).
Proof.
  destruct (init_outcomes (B:=Mock) None) as (_ & _ & NF & OK).
  assert (S : serves (answering [[0x03]])
                [Probe 0x39 true; Send (VBytes [0x80; 3]) 0x39 None;
                 Recv 1 0x39 (inl [0x03]); Send (VBytes [0x80; 0]) 0x39 None]
                (answering []))
    by (cbn; repeat (eexists; split; [reflexivity|]); reflexivity).
  split; split.
  - exact S.
  - now rewrite (OK _ _ _ S).
  - reflexivity.
  - now rewrite (NF {| present := false; acks := []; replies := [] |}
                    _ eq_refl).
Defined.

(** C10 fails as stated: a [set_timing_gain] whose write raises has not
    succeeded, yet it leaves the gain assigned, and the raw reading that
    follows returns a pair of channels. *)
Lemma failed_set_timing_gain_assigns_gain :
  let bus := {| present := true; acks := [None; None; Some 5];
                replies := [inl [0x03]] |} in
  let d := {| _i2c := {| present := true; acks := [Some 5]; replies := [] |};
              _addr := 0x39; _gain := None; _timing := None;
              wire := [Probe 0x39 true; Send (VBytes [0x80; 3]) 0x39 None;
                       Recv 1 0x39 (inl [0x03]);
                       Send (VBytes [0x80; 0]) 0x39 None] |} in
  let r := set_timing_gain T_SLOW (VBool false) (VBool true) d in
  __init__ (PyI2C bus) None = (Ok tt, Some d)
  /\ fst r = Raise (OSError 5)
  /\ _gain (snd r) = Some (VBool false)
  /\ fst (_raw_lumi (snd r)) = Ok (0, 0).
Proof. vm_compute. repeat split. Qed.

Lemma lumi_before_timing_gain_witness :
  let d := {| _i2c := answering []; _addr := 0x39; _gain := None;
              _timing := None;
              wire := [Probe 0x39 true; Send (VBytes [0x80; 3]) 0x39 None;
                       Recv 1 0x39 (inl [0x03]);
                       Send (VBytes [0x80; 0]) 0x39 None] |} in
  let cs := [call_get_id; call_set_timing_gain 7 (VBool true) (VBool true);
             call_set_power_up (VBool true); call_get_lumi] in
  __init__ (PyI2C (answering [[0x03]])) None = (Ok tt, Some d)
  /\ existsb configures cs = false
  /\ fst (_raw_lumi (after_calls pow_any d cs))
     = Raise (AttributeError "_gain")
  /\ fst (get_lumi pow_any (after_calls pow_any d cs))
     = Raise (AttributeError "_gain").
Proof.
  intros d cs.
  assert (I : __init__ (PyI2C (answering [[0x03]])) None = (Ok tt, Some d)).
  { vm_compute. reflexivity. }
  split; [exact I|]. split; [reflexivity|].
  destruct (lumi_before_timing_gain pow_any _ _ d cs I eq_refl)
    as (_ & _ & _ & K).
  apply (K [0] [0] [0] [0] (_i2c (after_calls pow_any d cs))).
  vm_compute. repeat (eexists; split; [reflexivity|]). reflexivity.
Defined.

Lemma get_lumi_branches_witness :
  let d := mock_configured true T_SLOW
             (answering [[100]; [0]; [61]; [0]]) in
  serves (_i2c d) (raw_exchange 0x39 [100] [0] [61] [0]) (answering [])
  /\ fst (get_lumi pow_any d)
     = Ok (Float (fsub (fmul (dec 224 10000) (of_int 100))
                       (fmul (dec 31 1000) (of_int 61)))).
Proof.
  intros d.
  assert (S : serves (_i2c d) (raw_exchange 0x39 [100] [0] [61] [0])
                (answering []))
    by (cbn; repeat (eexists; split; [reflexivity|]); reflexivity).
  split; [exact S|].
  destruct (get_lumi_branches pow_any d true 100 0 61 0 (answering [])
              eq_refl S) as (_ & _ & _ & _ & _ & K & _);
    [reflexivity|reflexivity|].
  apply K. reflexivity.
Defined.

Lemma get_lumi_sentinel_witness :
  let d := mock_configured false T_SLOW
             (answering [[10]; [0]; [20]; [0]]) in
  serves (_i2c d) (raw_exchange 0x39 [10] [0] [20] [0]) (answering [])
  /\ fst (get_lumi pow_any d) = Ok (Int 0).
Proof.
  intros d.
  assert (S : serves (_i2c d) (raw_exchange 0x39 [10] [0] [20] [0])
                (answering []))
    by (cbn; repeat (eexists; split; [reflexivity|]); reflexivity).
  split; [exact S|].
  destruct (get_lumi_sentinel pow_any d false 10 0 20 0 (answering [])
              eq_refl S) as (_ & K).
  apply K. right. right. vm_compute. reflexivity.
Defined.

(** * Further properties of the driver *)

Lemma verdict_app (xs ys : list xfer) :
  verdict xs = Some None -> verdict (xs ++ ys) = verdict ys.
Proof.
  induction xs as [|x xs IH]; [reflexivity|].
  cbn [verdict app]. destruct (failed x) as [errno|]; [|exact IH].
  destruct xs; discriminate.
Qed.

Section Conduct.
Context {B : Type} `{Bus : I2C B}.
Variable pow : float -> float -> float.

Let driver : Type := TSL2561 B.

(** ** Discipline on the bus *)

Lemma disciplined_ret {A} (a : A) : disciplined B (ret a).
Proof.
  intros d. exists []. cbn. rewrite app_nil_r. repeat split. constructor.
Qed.

Lemma disciplined_raise {A} (e : exn) :
  match e with OSError _ => False | _ => True end ->
  disciplined B (A:=A) (raise e).
Proof.
  intros He d. exists []. cbn. rewrite app_nil_r.
  repeat split; [constructor|]. now destruct e.
Qed.

Lemma disciplined_bind {A C} (m : M driver A) (k : A -> M driver C) :
  disciplined B m -> (forall a, disciplined B (k a)) ->
  disciplined B (bind m k).
Proof.
  intros Hm Hk d. unfold bind.
  destruct (Hm d) as (xs1 & W1 & A1 & F1 & V1).
  destruct (m d) as [[a|e] d1]; cbn [fst snd] in *.
  - destruct (Hk a d1) as (xs2 & W2 & A2 & F2 & V2).
    exists (xs1 ++ xs2). rewrite W2, W1, A2, A1, app_assoc.
    repeat split.
    + apply Forall_app. split; [assumption|]. now rewrite <- A1.
    + now rewrite verdict_app.
  - now exists xs1.
Qed.

Lemma disciplined_if {A} (c : bool) (m1 m2 : M driver A) :
  disciplined B m1 -> disciplined B m2 ->
  disciplined B (if c then m1 else m2).
Proof. now destruct c. Qed.

Lemma disciplined_send buf : disciplined B (_send buf).
Proof.
  intros d. unfold _send.
  destruct (send buf (_addr d) (_i2c d)) as [[errno|] b'];
    eexists; cbn; repeat split; repeat constructor.
Qed.

Lemma disciplined_recv n : disciplined B (_recv n).
Proof.
  intros d. unfold _recv.
  destruct (recv n (_addr d) (_i2c d)) as [[bs|errno] b'];
    eexists; cbn; repeat split; repeat constructor.
Qed.

Lemma disciplined_probe : disciplined B probe.
Proof.
  intros d. unfold probe.
  destruct (is_ready (_addr d) (_i2c d)) as [ack b'];
    eexists; cbn; repeat split; repeat constructor.
Qed.

Lemma disciplined_append b x : disciplined B (append b x).
Proof.
  unfold append. apply disciplined_if;
    [apply disciplined_ret|now apply disciplined_raise].
Qed.

Lemma disciplined_item0 v : disciplined B (item0 v).
Proof.
  destruct v as [| | |[|x bs]]; cbn;
    first [apply disciplined_ret | now apply disciplined_raise].
Qed.

Lemma disciplined_attr_gain : disciplined B attr_gain.
Proof.
  intros d. unfold attr_gain. exists [].
  destruct (_gain d); cbn; rewrite app_nil_r; repeat split; constructor.
Qed.

Lemma disciplined_assign_gain g : disciplined B (assign_gain g).
Proof.
  intros d. exists []. cbn. rewrite app_nil_r. repeat split. constructor.
Qed.

Lemma disciplined_assign_timing t : disciplined B (assign_timing t).
Proof.
  intros d. exists []. cbn. rewrite app_nil_r. repeat split. constructor.
Qed.

(** The formula never raises: the division is reached only with a nonzero
    divisor. *)
Lemma lux_returns (raw : Z * Z) : exists l, lux pow raw = Ok l.
Proof.
  unfold lux, truediv. destruct (fst raw =? 0) eqn:E; cbn [negb].
  - now exists (Int 0).
  - repeat match goal with
           | |- context [if ?c then _ else _] => destruct c
           end; eexists; reflexivity.
Qed.

Lemma disciplined_lux raw :
  disciplined B (match lux pow raw with Ok l => ret l | Raise e => raise e end).
Proof. destruct (lux_returns raw) as [l ->]. apply disciplined_ret. Qed.

Create HintDb disciplined discriminated.
Hint Resolve disciplined_ret disciplined_send disciplined_recv
  disciplined_probe disciplined_append disciplined_item0
  disciplined_attr_gain disciplined_assign_gain disciplined_assign_timing
  disciplined_lux : disciplined.
Hint Extern 2 (disciplined _ (bind _ _)) =>
  apply disciplined_bind; [|intro] : disciplined.
Hint Extern 2 (disciplined _ (if _ then _ else _)) =>
  apply disciplined_if : disciplined.
Hint Extern 2 (disciplined _ (raise _)) =>
  apply disciplined_raise; exact I : disciplined.

(** X1. Whatever the bus does, each method talks to the device at
    [self._addr] only, issues nothing after a transfer that failed, and
    raises [OSError] exactly when its last transfer failed, with the error
    of that transfer: transport errors are neither swallowed nor retried. *)
Theorem methods_disciplined :
  (forall s, disciplined B (set_power_up s))
  /\ (forall timing gain manual_start,
         disciplined B (set_timing_gain timing gain manual_start))
  /\ disciplined B get_id
  /\ disciplined B _raw_lumi
  /\ disciplined B (get_lumi pow).
Proof.
  repeat split; intros.
  - unfold set_power_up. auto 20 with disciplined.
  - unfold set_timing_gain. auto 20 with disciplined.
  - unfold get_id. auto 20 with disciplined.
  - unfold _raw_lumi. auto 40 with disciplined.
  - unfold get_lumi, _raw_lumi. auto 40 with disciplined.
Qed.

(** ** What the methods raise *)

Ltac crank :=
  repeat (unfold bind, ret, raise, item0, append, attr_gain, assign_gain,
            assign_timing, _send, _recv, probe, on_bus;
          cbn;
          match goal with
          | |- context [send ?buf ?a ?b] =>
              let E := fresh "E" in
              destruct (send buf a b) as [[?|] ?] eqn:E
          | |- context [recv ?n ?a ?b] =>
              let E := fresh "E" in
              destruct (recv n a b) as [[?|?] ?] eqn:E;
              [destruct (recv_one _ _ _ _ E) as (? & -> & ?)|]
          | |- context [is_ready ?a ?b] =>
              let E := fresh "E" in
              destruct (is_ready a b) as [[] ?] eqn:E
          end);
  unfold bind, ret, raise, item0, append, attr_gain, assign_gain,
    assign_timing, _send, _recv, probe, on_bus;
  cbn.

Lemma timing_codes (timing : Z) :
  existsb (Z.eqb timing) [T_FAST; T_MEDIUM; T_SLOW; T_MANUAL] = true ->
  timing = 0 \/ timing = 1 \/ timing = 2 \/ timing = 3.
Proof.
  intros H. apply existsb_exists in H as (x & Hx & E).
  apply Z.eqb_eq in E. subst x. unfold T_FAST, T_MEDIUM, T_SLOW, T_MANUAL in Hx.
  cbn in Hx. intuition.
Qed.

(** [get_lumi] is the formula applied to what [_raw_lumi] returns, and
    raises what [_raw_lumi] raises. *)
Lemma get_lumi_after_raw (d : driver) :
  get_lumi pow d
  = (match fst (_raw_lumi d) with
     | Ok raw => lux pow raw
     | Raise e => Raise e
     end, snd (_raw_lumi d)).
Proof.
  unfold get_lumi, bind. destruct (_raw_lumi d) as [[raw|e] d1]; cbn [fst snd].
  - now destruct (lux pow raw).
  - reflexivity.
Qed.



(** ** The cached configuration *)

Lemma set_timing_gain_assigns (d : driver) timing gain manual_start :
  accepted timing gain manual_start = true ->
  let d' := snd (set_timing_gain timing gain manual_start d) in
  _gain d' = Some gain /\ _timing d' = Some timing /\ _addr d' = _addr d.
Proof.
  unfold accepted. intros H.
  apply andb_prop in H as [H Hm]. apply andb_prop in H as [Ht Hg].
  destruct gain as [|g|n|bs]; try discriminate.
  destruct manual_start as [|m|n|bs]; try discriminate.
  unfold set_timing_gain. rewrite Ht. cbn [class_of class_eqb negb].
  destruct (timing_codes timing Ht) as [-> | [-> | [-> | ->]]];
    destruct g, m; cbn [int_of Z.b2z]; crank; repeat split.
Qed.

Lemma after_call_cache (d : driver) (c : call) :
  (_gain (after_call pow d c), _timing (after_call pow d c))
  = configured (_gain d, _timing d) c
  /\ _addr (after_call pow d c) = _addr d.
Proof.
  destruct c as [s|timing gain manual_start| | |]; cbn [after_call configured].
  - destruct (framed_set_power_up s d) as (-> & -> & ->). now split.
  - destruct (accepted timing gain manual_start) eqn:E.
    + destruct (set_timing_gain_assigns d _ _ _ E) as (-> & -> & ->).
      now split.
    + now rewrite set_timing_gain_rejected.
  - destruct (framed_get_id d) as (-> & -> & ->). now split.
  - destruct (framed_raw_lumi d) as (-> & -> & ->). now split.
  - destruct (framed_get_lumi pow d) as (-> & -> & ->). now split.
Qed.

Lemma after_calls_addr (cs : list call) (d : driver) :
  _addr (after_calls pow d cs) = _addr d.
Proof.
  revert d.
  induction cs as [|c cs IH]; intros d; [reflexivity|].
  unfold after_calls in *. cbn [fold_left].
  rewrite IH. apply after_call_cache.
Qed.


Lemma after_call_coherent (d : driver) (c : call) :
  coherent d -> coherent (after_call pow d c).
Proof.
  intros H. destruct (after_call_cache d c) as [E _].
  destruct c as [s|timing gain manual_start| | |]; cbn [configured] in E;
    try (injection E as Eg Et; unfold coherent, after_call;
         rewrite Eg, Et; exact H).
  destruct (accepted timing gain manual_start) eqn:A;
    [|injection E as Eg Et; unfold coherent, after_call;
      rewrite Eg, Et; exact H].
  injection E as Eg Et. right.
  unfold accepted in A.
  apply andb_prop in A as [A _]. apply andb_prop in A as [At Ag].
  destruct gain as [|g|n|bs]; try discriminate.
  exists g, timing. repeat split; try assumption.
  apply existsb_exists in At as (x & Hx & Ex).
  apply Z.eqb_eq in Ex. now subst x.
Qed.

Lemma init_fresh (i2c : handle B) addr r (d : driver) :
  __init__ i2c addr = (r, Some d) ->
  _addr d = match addr with Some a => a | None => addr_default end
  /\ _gain d = None /\ _timing d = None.
Proof.
  unfold __init__. destruct i2c as [|b|v]; try discriminate.
  set (a := match addr with Some a => a | None => addr_default end).
  set (self := {| _i2c := b; _gain := None |}).
  set (body := bind probe _).
  assert (F : framed B body).
  { unfold body. apply framed_bind; [apply framed_probe|]. intro ready.
    apply framed_if; [apply framed_raise|].
    apply framed_bind; intros; apply framed_set_power_up. }
  specialize (F self). destruct (body self) as [r0 d0].
  cbn [snd] in F. intros [= _ <-]. exact F.
Qed.

(** X4. On a constructed driver, after any sequence of method calls and
    whatever the bus does, the gain and the timing are cached together or
    not at all, a cached gain is a boolean and a cached timing one of the
    four codes, and the address is still the one given to the
    constructor. *)
Theorem constructed_cache_coherent
    (i2c : handle B) addr r (d : driver) (cs : list call) :
  __init__ i2c addr = (r, Some d) ->
  let d' := after_calls pow d cs in
  _addr d' = match addr with Some a => a | None => 0x39 end
  /\ ((_gain d' = None /\ _timing d' = None)
      \/ (exists g t, _gain d' = Some (VBool g) /\ _timing d' = Some t
                      /\ In t [T_FAST; T_MEDIUM; T_SLOW; T_MANUAL])).
Proof.
  intros H d'. destruct (init_fresh _ _ _ _ H) as (Ha & Hg & Ht).
  split.
  - unfold d'. now rewrite after_calls_addr.
  - change (coherent d'). unfold d'.
    assert (C : coherent d) by (left; now split).
    clear - C. revert d C. induction cs as [|c cs IH]; intros d C; [exact C|].
    unfold after_calls in *. cbn [fold_left].
    apply IH. now apply after_call_coherent.
Qed.

(** ** Encodings *)

Ltac follow :=
  repeat (unfold bind, ret, raise, item0, append, attr_gain, assign_gain,
            assign_timing, _send, _recv, probe, on_bus;
          cbn;
          match goal with
          | E : send ?buf ?a ?b = _ |- context [send ?buf ?a ?b] => rewrite E
          | E : recv ?n ?a ?b = _ |- context [recv ?n ?a ?b] => rewrite E
          | E : is_ready ?a ?b = _ |- context [is_ready ?a ?b] => rewrite E
          end);
  unfold bind, ret, raise, item0, append, attr_gain, assign_gain,
    assign_timing, _send, _recv, probe, on_bus;
  cbn.

(** X5. The configuration byte [set_timing_gain] writes can be decoded:
    it is below 32, its bit 4 is the gain, its bit 3 the manual start, its
    two low bits the timing code and its bit 2 is clear, so that different
    configurations are written as different bytes. *)
Theorem config_byte_decodes (d : driver) timing (g m : bool) :
  In timing [T_FAST; T_MEDIUM; T_SLOW; T_MANUAL] ->
  exists data,
    wire (snd (set_timing_gain timing (VBool g) (VBool m) d))
    = wire d ++ [Send (VBytes [0x81; data]) (_addr d)
                      (fst (send (VBytes [0x81; data]) (_addr d) (_i2c d)))]
    /\ 0 <= data < 32
    /\ Z.testbit data 4 = g
    /\ Z.testbit data 3 = m
    /\ Z.testbit data 2 = false
    /\ Z.land data 3 = timing.
Proof.
  intros Ht.
  exists (Z.lor (Z.lor (Z.shiftl (Z.b2z g) 4) (Z.shiftl (Z.b2z m) 3)) timing).
  unfold T_FAST, T_MEDIUM, T_SLOW, T_MANUAL in Ht.
  destruct Ht as [<-|[<-|[<-|[<-|[]]]]]; destruct g, m; cbn;
    (split; [unfold set_timing_gain; crank; reflexivity|]);
    repeat split; try reflexivity; lia.
Qed.

(** X6. The two numbers [get_id] returns are four-bit values, and together
    they are the register byte again: part * 16 + revision. *)
Theorem get_id_nibbles (d : driver) bs b' :
  serves (_i2c d) [Send (VBytes [0x8A]) (_addr d) None;
                   Recv 1 (_addr d) (inl bs)] b' ->
  exists id_reg p_no r_no,
    bs = [id_reg]
    /\ fst (get_id d) = Ok (p_no, r_no)
    /\ 0 <= p_no < 16 /\ 0 <= r_no < 16
    /\ p_no * 16 + r_no = id_reg.
Proof.
  intros (b1 & E1 & b2 & E2 & ->). cbn [serves1] in *.
  destruct (recv_one _ _ _ _ E2) as (x & -> & Hx).
  exists x, (Z.shiftr x 4), (Z.land x 0xF).
  split; [reflexivity|]. split.
  - unfold get_id. follow. reflexivity.
  - rewrite Z.shiftr_div_pow2 by lia.
    change 0xF with (Z.ones 4). rewrite Z.land_ones by lia.
    change (2 ^ 4) with 16. Z.div_mod_to_equations. lia.
Qed.

(** X7. The channels [_raw_lumi] returns are 16-bit values with the gain
    cached on, and 16 times a 16-bit value with it off; either way the four
    bytes read can be recovered from them. *)
Theorem raw_lumi_ranges (d : driver) (g : bool) r0 r1 r2 r3 b' :
  _gain d = Some (VBool g) ->
  serves (_i2c d) (raw_exchange (_addr d) r0 r1 r2 r3) b' ->
  exists c0 c1,
    fst (_raw_lumi d) = Ok (c0, c1)
    /\ let k := if g then 1 else 16 in
       0 <= c0 < 65536 * k /\ 0 <= c1 < 65536 * k
       /\ c0 mod k = 0 /\ c1 mod k = 0
       /\ r0 = [(c0 / k) mod 256] /\ r1 = [(c0 / k) / 256]
       /\ r2 = [(c1 / k) mod 256] /\ r3 = [(c1 / k) / 256].
Proof.
  intros Hg H.
  destruct (raw_exchange_bytes _ _ _ _ _ _ _ H)
    as (x0 & x1 & x2 & x3 & [= -> -> -> ->] & B0 & B1 & B2 & B3).
  rewrite (raw_lumi_served d _ _ _ _ _ H), Hg. cbn [fst truthy].
  assert (S : forall a, Z.shiftl a 4 = 16 * a)
    by (intros a; rewrite Z.shiftl_mul_pow2 by lia;
        change (2 ^ 4) with 16; lia).
  destruct g; cbn [negb]; eexists; eexists; (split; [reflexivity|]);
    rewrite ?S; cbv zeta;
    repeat split; try f_equal; Z.div_mod_to_equations; lia.
Qed.

(** ** Reading the luminosity *)

(** X8. [get_lumi] adds nothing of its own to [_raw_lumi]: it leaves the
    object and the bus as [_raw_lumi] does, raises what [_raw_lumi] raises,
    and returns the formula of the raw reading, which is defined for every
    pair of ints (the division is never reached with a zero divisor). *)
Theorem get_lumi_composes (d : driver) :
  snd (get_lumi pow d) = snd (_raw_lumi d)
  /\ fst (get_lumi pow d)
     = match fst (_raw_lumi d) with
       | Ok raw => lux pow raw
       | Raise e => Raise e
       end
  /\ forall raw, exists l, lux pow raw = Ok l.
Proof.
  rewrite get_lumi_after_raw. repeat split. apply lux_returns.
Qed.

(** X9. The gain compensation does not bear on the choice [get_lumi]
    makes: for 16-bit readings, the ratio of the channels shifted left by
    four is the same float as the ratio of the channels as read, and the
    int [0] comes out for the ones exactly when it does for the others. *)
Theorem lux_gain_independent (a0 a1 : Z) :
  0 <= a0 < 65536 -> 0 <= a1 < 65536 ->
  (0 < a0 -> 0 < a1 ->
   fdiv (of_int (Z.shiftl a1 4)) (of_int (Z.shiftl a0 4))
   = fdiv (of_int a1) (of_int a0))
  /\ (lux pow (Z.shiftl a0 4, Z.shiftl a1 4) = Ok (Int 0)
      <-> lux pow (a0, a1) = Ok (Int 0)).
Proof.
  intros H0 H1.
  assert (R : 0 < a0 -> 0 < a1 ->
              fdiv (of_int (Z.shiftl a1 4)) (of_int (Z.shiftl a0 4))
              = fdiv (of_int a1) (of_int a0)).
  { intros P0 P1.
    exact (proj1 (channel_ratio false a0 a1 ltac:(lia) ltac:(lia))). }
  split; [exact R|].
  destruct (lux_sentinel pow false a0 a1 H0 H1) as [_ Sh].
  destruct (lux_sentinel pow true a0 a1 H0 H1) as [_ Un].
  cbv zeta in Sh, Un. cbn [negb] in Sh, Un.
  destruct (channel_range false a0 H0) as (_ & Z0 & _).
  destruct (channel_range false a1 H1) as (_ & Z1 & _).
  cbv zeta in Z0, Z1.
  rewrite Sh, Un, Z0, Z1.
  destruct (Z.eq_dec a0 0) as [E0|N0]; [tauto|].
  destruct (Z.eq_dec a1 0) as [E1|N1]; [tauto|].
  rewrite R by lia. tauto.
Qed.

(** ** The constructor *)

(** X10. Whenever the constructor leaves an object behind, whether it
    returned or raised, that object was given an I2C bus, has the address
    asked for (0x39 by default) and no cached gain or timing; the probe was
    the first thing on the bus and, unless it was acknowledged, the only
    one; at most three transfers followed, all to that address, none after
    one that failed; and a transport error is what was raised exactly when
    the last transfer failed. *)
Theorem init_object (i2c : handle B) addr r (d : driver) :
  __init__ i2c addr = (r, Some d) ->
  let a := match addr with Some a => a | None => 0x39 end in
  (exists b, i2c = PyI2C b)
  /\ _addr d = a /\ _gain d = None /\ _timing d = None
  /\ (exists ack rest,
         wire d = Probe a ack :: rest
         /\ (List.length rest <= 3)%nat
         /\ (ack = false -> rest = []))
  /\ Forall (to_addr a) (wire d)
  /\ verdict (wire d) = Some (transport_error r).
Proof.
  intros H a. destruct i2c as [|b|v]; try discriminate.
  split; [now exists b|]. revert H.
  unfold __init__, set_power_up. fold addr_default.
  change (match addr with Some a0 => a0 | None => addr_default end) with a.
  generalize (HexString.of_Z a). intros hex.
  crank; intros [= <- <-]; cbn;
    (split; [reflexivity|]); (split; [reflexivity|]);
    (split; [reflexivity|]);
    (split; [do 2 eexists; split; [reflexivity|];
             split; [cbn; lia|]; first [discriminate|reflexivity]|]);
    split; try reflexivity; repeat constructor.
Qed.

(** X11. A transport error during construction is raised at once and
    nothing more is sent: when the power-up write fails, the acknowledgement
    is not read; when reading it fails, or when the power-down write fails,
    the constructor raises with no power-down having gone through. *)
Theorem init_interrupted (addr : option Z) :
  let a := match addr with Some a => a | None => 0x39 end in
  let up := Send (VBytes [0x80; 3]) a in
  let down := Send (VBytes [0x80; 0]) a in
  (forall b b' errno,
      serves b [Probe a true; up (Some errno)] b' ->
      __init__ (PyI2C b) addr
      = (Raise (OSError errno),
         Some {| _i2c := b'; _addr := a; _gain := None; _timing := None;
                 wire := [Probe a true; up (Some errno)] |}))
  /\ (forall b b' errno,
         serves b [Probe a true; up None; Recv 1 a (inr errno)] b' ->
         __init__ (PyI2C b) addr
         = (Raise (OSError errno),
            Some {| _i2c := b'; _addr := a; _gain := None; _timing := None;
                    wire := [Probe a true; up None;
                             Recv 1 a (inr errno)] |}))
  /\ (forall b b' bs errno,
         serves b [Probe a true; up None; Recv 1 a (inl bs);
                   down (Some errno)] b' ->
         __init__ (PyI2C b) addr
         = (Raise (OSError errno),
            Some {| _i2c := b'; _addr := a; _gain := None; _timing := None;
                    wire := [Probe a true; up None; Recv 1 a (inl bs);
                             down (Some errno)] |})).
Proof.
  intros a up down. unfold up, down.
  split; [|split].
  - intros b b' errno (b1 & E1 & b2 & E2 & ->). cbn [serves1] in *.
    unfold __init__, set_power_up.
    change (match addr with Some a0 => a0 | None => addr_default end) with a.
    generalize (HexString.of_Z a). intros hex. follow. reflexivity.
  - intros b b' errno (b1 & E1 & b2 & E2 & b3 & E3 & ->).
    cbn [serves1] in *. unfold __init__, set_power_up.
    change (match addr with Some a0 => a0 | None => addr_default end) with a.
    generalize (HexString.of_Z a). intros hex. follow. reflexivity.
  - intros b b' bs errno (b1 & E1 & b2 & E2 & b3 & E3 & b4 & E4 & ->).
    cbn [serves1] in *. unfold __init__, set_power_up.
    change (match addr with Some a0 => a0 | None => addr_default end) with a.
    generalize (HexString.of_Z a). intros hex. follow.
    destruct (recv_one _ _ _ _ E3) as (x & -> & _). cbn. follow. reflexivity.
Qed.

(** ** When the reads return *)

(** X12. [get_id] and [_raw_lumi] return only when the bus has served
    their whole exchange: a returned identification comes with the command
    write and the one-byte read on record, a returned raw reading with the
    eight transfers of the four registers, in order, and the values are
    those of the bytes on record. *)
Theorem reads_return_when_served (d : driver) :
  (forall p_no r_no,
      fst (get_id d) = Ok (p_no, r_no) ->
      exists id_reg,
        let xs := [Send (VBytes [0x8A]) (_addr d) None;
                   Recv 1 (_addr d) (inl [id_reg])] in
        serves (_i2c d) xs (_i2c (snd (get_id d)))
        /\ wire (snd (get_id d)) = wire d ++ xs
        /\ (p_no, r_no) = (Z.shiftr id_reg 4, Z.land id_reg 0xF))
  /\ (forall c0 c1,
         fst (_raw_lumi d) = Ok (c0, c1) ->
         exists c0_l c0_h c1_l c1_h g,
           let xs := raw_exchange (_addr d) [c0_l] [c0_h] [c1_l] [c1_h] in
           serves (_i2c d) xs (_i2c (snd (_raw_lumi d)))
           /\ wire (snd (_raw_lumi d)) = wire d ++ xs
           /\ _gain d = Some g
           /\ (c0, c1)
              = if negb (truthy g)
                then (Z.shiftl (c0_h * 256 + c0_l) 4,
                      Z.shiftl (c1_h * 256 + c1_l) 4)
                else (c0_h * 256 + c0_l, c1_h * 256 + c1_l)).
Proof.
  split.
  - intros p_no r_no. unfold get_id. crank; try discriminate.
    intros [= <- <-]. eexists. cbn. split; [|split].
    + repeat (eexists; split; [first [reflexivity|eassumption]|]).
      reflexivity.
    + now rewrite <- app_assoc.
    + reflexivity.
  - intros c0 c1. unfold _raw_lumi. crank; try discriminate.
    destruct (_gain d) as [g|] eqn:G; [|discriminate].
    intros R. do 4 eexists. exists g. cbn. split; [|split; [|split]].
    + repeat (eexists; split; [first [reflexivity|eassumption]|]).
      destruct (negb (truthy g)); reflexivity.
    + unfold raw_exchange. destruct (negb (truthy g)); cbn;
        now rewrite <- !app_assoc.
    + reflexivity.
    + destruct (negb (truthy g)); cbn in R; now injection R as <- <-.
Qed.

End Conduct.

(** ** The further properties on a scripted bus *)

Lemma constructed_cache_coherent_witness :
  let d := {| _i2c := answering []; _addr := 0x39; _gain := None;
              _timing := None;
              wire := [Probe 0x39 true; Send (VBytes [0x80; 3]) 0x39 None;
                       Recv 1 0x39 (inl [0x03]);
                       Send (VBytes [0x80; 0]) 0x39 None] |} in
  let cs := [call_set_timing_gain T_SLOW (VBool true) (VBool false);
             call_get_id] in
  __init__ (PyI2C (answering [[0x03]])) None = (Ok tt, Some d)
  /\ _addr (after_calls pow_any d cs) = 0x39
  /\ _gain (after_calls pow_any d cs) = Some (VBool true)
  /\ _timing (after_calls pow_any d cs) = Some T_SLOW.
Proof.
  intros d cs.
  assert (I : __init__ (PyI2C (answering [[0x03]])) None = (Ok tt, Some d))
    by (vm_compute; reflexivity).
  split; [exact I|].
  destruct (constructed_cache_coherent pow_any _ None _ d cs I) as [A _].
  split; [exact A|]. split; reflexivity.
Defined.

Lemma config_byte_decodes_witness :
  In T_MANUAL [T_FAST; T_MEDIUM; T_SLOW; T_MANUAL]
  /\ exists data,
       wire (snd (set_timing_gain T_MANUAL (VBool true) (VBool true)
                    (mock_driver (answering []))))
       = [Send (VBytes [0x81; data]) 0x39 None]
       /\ Z.testbit data 4 = true /\ Z.land data 3 = T_MANUAL.
Proof.
  assert (V : In T_MANUAL [T_FAST; T_MEDIUM; T_SLOW; T_MANUAL])
    by (right; right; right; left; reflexivity).
  split; [exact V|].
  destruct (config_byte_decodes (mock_driver (answering [])) T_MANUAL
              true true V) as (data & W & _ & G & _ & _ & L).
  exists data. split; [exact W|]. split; [exact G|exact L].
Defined.

Lemma get_id_nibbles_witness :
  serves (answering [[0xA5]])
    [Send (VBytes [0x8A]) 0x39 None; Recv 1 0x39 (inl [0xA5])] (answering [])
  /\ exists p_no r_no,
       fst (get_id (mock_driver (answering [[0xA5]]))) = Ok (p_no, r_no)
       /\ p_no * 16 + r_no = 0xA5.
Proof.
  assert (S : serves (answering [[0xA5]])
                [Send (VBytes [0x8A]) 0x39 None; Recv 1 0x39 (inl [0xA5])]
                (answering []))
    by (cbn; repeat (eexists; split; [reflexivity|]); reflexivity).
  split; [exact S|].
  destruct (get_id_nibbles (mock_driver (answering [[0xA5]])) [0xA5]
              (answering []) S) as (x & p & r & E & G & _ & _ & K).
  exists p, r. split; [exact G|]. injection E as <-. exact K.
Defined.

Lemma raw_lumi_ranges_witness :
  let d := mock_configured false T_SLOW
             (answering [[0x34]; [0x12]; [0xFF]; [0x00]]) in
  serves (_i2c d) (raw_exchange 0x39 [0x34] [0x12] [0xFF] [0x00])
    (answering [])
  /\ exists c0 c1,
       fst (_raw_lumi d) = Ok (c0, c1)
       /\ c0 mod 16 = 0 /\ [0x34] = [(c0 / 16) mod 256].
Proof.
  intros d.
  assert (S : serves (_i2c d) (raw_exchange 0x39 [0x34] [0x12] [0xFF] [0x00])
                (answering []))
    by (cbn; repeat (eexists; split; [reflexivity|]); reflexivity).
  split; [exact S|].
  destruct (raw_lumi_ranges d false [0x34] [0x12] [0xFF] [0x00]
              (answering []) eq_refl S)
    as (c0 & c1 & R & _ & _ & M & _ & L & _).
  exists c0, c1. split; [exact R|]. split; [exact M|exact L].
Defined.

Lemma lux_gain_independent_witness :
  (0 <= 100 < 65536 /\ 0 <= 61 < 65536 /\ 0 < 100 /\ 0 < 61)
  /\ fdiv (of_int (Z.shiftl 61 4)) (of_int (Z.shiftl 100 4))
     = fdiv (of_int 61) (of_int 100).
Proof.
  assert (H0 : 0 <= 100 < 65536) by lia.
  assert (H1 : 0 <= 61 < 65536) by lia.
  assert (P0 : 0 < 100) by lia.
  assert (P1 : 0 < 61) by lia.
  split; [exact (conj H0 (conj H1 (conj P0 P1)))|].
  exact (proj1 (lux_gain_independent pow_any 100 61 H0 H1) P0 P1).
Defined.

Lemma init_object_witness :
  let bus := {| present := true; acks := [Some 5]; replies := [] |} in
  let d := {| _i2c := {| present := true; acks := []; replies := [] |};
              _addr := 0x39; _gain := None; _timing := None;
              wire := [Probe 0x39 true;
                       Send (VBytes [0x80; 3]) 0x39 (Some 5)] |} in
  __init__ (PyI2C bus) None = (Raise (OSError 5), Some d)
  /\ verdict (wire d) = Some (Some 5)
  /\ Forall (to_addr 0x39) (wire d).
Proof.
  intros bus d.
  assert (I : __init__ (PyI2C bus) None = (Raise (OSError 5), Some d))
    by (vm_compute; reflexivity).
  split; [exact I|].
  destruct (init_object (PyI2C bus) None _ d I)
    as (_ & _ & _ & _ & _ & F & V).
  split; [exact V|exact F].
Defined.

Lemma init_interrupted_witness :
  let bus := {| present := true; acks := []; replies := [inr 5] |} in
  serves bus [Probe 0x39 true; Send (VBytes [0x80; 3]) 0x39 None;
              Recv 1 0x39 (inr 5)] (answering [])
  /\ fst (__init__ (PyI2C bus) None) = Raise (OSError 5).
Proof.
  intros bus.
  assert (S : serves bus [Probe 0x39 true; Send (VBytes [0x80; 3]) 0x39 None;
                          Recv 1 0x39 (inr 5)] (answering []))
    by (cbn; repeat (eexists; split; [reflexivity|]); reflexivity).
  split; [exact S|].
  destruct (init_interrupted (B:=Mock) None) as (_ & R & _).
  now rewrite (R bus (answering []) 5 S).
Defined.

Lemma reads_return_when_served_witness :
  let d := mock_driver (answering [[0xA5]]) in
  fst (get_id d) = Ok (10, 5)
  /\ exists id_reg,
       wire (snd (get_id d))
       = [Send (VBytes [0x8A]) 0x39 None; Recv 1 0x39 (inl [id_reg])]
       /\ (10, 5) = (Z.shiftr id_reg 4, Z.land id_reg 0xF).
Proof.
  intros d.
  assert (G : fst (get_id d) = Ok (10, 5)) by reflexivity.
  split; [exact G|].
  destruct (proj1 (reads_return_when_served d) 10 5 G) as (x & _ & W & E).
  exists x. split; [exact W|exact E].
Defined.
